(** * ExpenseTracker: the tabular expense store and its aggregate reports

    A shallow embedding of [expense_tracker.py] (class [ExpenseTracker]) and
    the properties its specification states about it.

    Modelling conventions.
    - The [DataFrame] held in [self.df] is the list of its rows; its index
      is the default [RangeIndex], so a row label is the row position.
    - A cell of the [Category] or of the [Description] column is a text or
      is missing: [read_csv] gives NaN for an empty cell and for the texts
      it takes for a missing value, and [groupby] and [count] leave such
      cells out.  Text that [read_csv] would read as a number or as a
      truth value is outside the model.
    - The [Amount] column is [int64] or [float64] in the program.  An
      amount is a finite number, an exact rational here ([Q]), and sums
      are exact: the rounding error of [float64] arithmetic, the
      wrap-around of [int64] sums and the amounts NaN and infinity are
      outside the model.  Statements that depend on the size of the sums
      carry [sums_in_range].  The non-finite values that numpy produces
      instead of raising (division by zero, mean of nothing) are the
      [None] of [num].
    - Every date cell holds a date: NaT is not modelled.
    - [print] is modelled by the value each method reports: every method
      returns an outcome that names the branch taken and carries the
      numbers it prints.
    - The file system and the console are explicit arguments.
    - Library functions whose code is not part of the program
      ([float], [pd.to_datetime], [strftime], the sort behind
      [sort_values]) are parameters constrained by what their
      documentation promises.  The quicksort of numpy, which decides the
      order of rows with equal keys, is written out as one sort that
      meets the contract. *)

From Stdlib Require Import ZArith QArith Qround Qabs Lqa Lia Bool.
From Stdlib Require Import List String Ascii Permutation Sorted.
From Stdlib Require OrderedTypeEx.
From stdpp Require Import gmap strings.
Import ListNotations.

Local Open Scope Q_scope.

(** ** Python values *)

(** A [float64] result: [Some q] is the finite value [q], [None] is NaN or
    an infinity. *)
Definition num := option Q.

Inductive Exn :=
| ValueError
| KeyError
| OSError.

(** Outcome of a Python call: a value, or a raised exception. *)
Inductive result (A : Type) :=
| Ok (a : A)
| Raise (e : Exn).
Arguments Ok {A} a.
Arguments Raise {A} e.

Definition bind {A B} (m : result A) (k : A -> result B) : result B :=
  match m with
  | Ok a => k a
  | Raise e => Raise e
  end.

Notation "'try' x <- m 'in' k" := (bind m (fun x => k))
  (at level 10, x name, m at level 100, k at level 200).

(** ** [str.strip] *)

(** ASCII characters for which [str.isspace] holds.  A string is a
    sequence of bytes here, so the white space outside ASCII that
    [str.strip] also removes is not modelled. *)
Definition is_space (c : ascii) : bool :=
  let n := nat_of_ascii c in
  ((9 <=? n)%nat && (n <=? 13)%nat) || ((28 <=? n)%nat && (n <=? 32)%nat).

Fixpoint lstrip_chars (l : list ascii) : list ascii :=
  match l with
  | c :: l' => if is_space c then lstrip_chars l' else l
  | [] => []
  end.

Definition strip (s : string) : string :=
  string_of_list_ascii
    (rev (lstrip_chars (rev (lstrip_chars (list_ascii_of_string s))))).

(** ** Series arithmetic *)

Definition Series_sum (l : list Q) : Q := fold_right Qplus 0 l.

(** numpy division: a zero divisor gives a non-finite value, no exception. *)
Definition np_div (x y : Q) : num :=
  if Qeq_bool y 0 then None else Some (x / y).

(** [Series.mean]: NaN on an empty series. *)
Definition Series_mean (l : list Q) : num :=
  match l with
  | [] => None
  | _ => Some (Series_sum l / inject_Z (Z.of_nat (List.length l)))
  end.

(** Nearest integer, halves to the even neighbour ([np.rint]). *)
Definition rint (x : Q) : Z :=
  let f := Qfloor x in
  match Qcompare (x - inject_Z f) (1 # 2) with
  | Lt => f
  | Gt => (f + 1)%Z
  | Eq => if Z.even f then f else (f + 1)%Z
  end.

(** [round(2)] on a finite value: [rint (x * 100) / 100]. *)
Definition round2 (x : Q) : Q := rint (x * 100) # 100.

Definition num_round2 (x : num) : num := option_map round2 x.

Definition num_scale (k : Q) (x : num) : num := option_map (fun q => q * k) x.

(** ** Timestamps *)

(** A pandas [Timestamp] is its count of nanoseconds since the epoch.
    [NaT], which [pd.to_datetime] gives for an empty cell, is not a
    calendar date and is not modelled. *)
Definition Timestamp := Z.

Definition ns_per_day : Z := 86400 * 1000000000.

(** Days since 1970-01-01 of a civil date (proleptic Gregorian). *)
Definition days_from_civil (y m d : Z) : Z :=
  let y' := (if m <=? 2 then y - 1 else y)%Z in
  let era := (y' / 400)%Z in
  let yoe := (y' - era * 400)%Z in
  let mp := ((m + 9) mod 12)%Z in
  let doy := ((153 * mp + 2) / 5 + d - 1)%Z in
  let doe := (yoe * 365 + yoe / 4 - yoe / 100 + doy)%Z in
  (era * 146097 + doe - 719468)%Z.

Definition civil_from_days (z : Z) : Z * Z * Z :=
  let z' := (z + 719468)%Z in
  let era := (z' / 146097)%Z in
  let doe := (z' - era * 146097)%Z in
  let yoe := ((doe - doe / 1460 + doe / 36524 - doe / 146096) / 365)%Z in
  let doy := (doe - (365 * yoe + yoe / 4 - yoe / 100))%Z in
  let mp := ((5 * doy + 2) / 153)%Z in
  let d := (doy - (153 * mp + 2) / 5 + 1)%Z in
  let m := (if mp <? 10 then mp + 3 else mp - 9)%Z in
  let y := (yoe + era * 400)%Z in
  ((if m <=? 2 then y + 1 else y)%Z, m, d).

Definition is_leap (y : Z) : bool :=
  ((y mod 4 =? 0) && negb (y mod 100 =? 0) || (y mod 400 =? 0))%Z.

Definition days_in_month (y m : Z) : Z :=
  if (m =? 2)%Z then (if is_leap y then 29 else 28)%Z
  else if ((m =? 4) || (m =? 6) || (m =? 9) || (m =? 11))%Z then 30%Z
  else 31%Z.

(** *** Decimal digits *)

Definition digit_of (c : ascii) : option Z :=
  let n := nat_of_ascii c in
  if ((48 <=? n) && (n <=? 57))%nat then Some (Z.of_nat n - 48)%Z else None.

Fixpoint digits_value (acc : Z) (l : list ascii) : option Z :=
  match l with
  | [] => Some acc
  | c :: l' =>
      match digit_of c with
      | Some d => digits_value (acc * 10 + d)%Z l'
      | None => None
      end
  end.

Definition number_of (l : list ascii) : option Z :=
  match l with
  | [] => None
  | _ => digits_value 0 l
  end.

Definition ascii_of_digit (d : Z) : ascii := ascii_of_nat (Z.to_nat (48 + d)).

(** [n] written with at least [w] digits, zero padded. *)
Fixpoint pad_digits (w : nat) (n : Z) (acc : list ascii) : list ascii :=
  match w with
  | O => acc
  | S w' => pad_digits w' (n / 10)%Z (ascii_of_digit (n mod 10) :: acc)
  end.

(** *** ISO calendar dates, [YYYY-MM-DD] *)

Definition iso_date (s : string) : option Timestamp :=
  match list_ascii_of_string s with
  | [y1; y2; y3; y4; "-"%char; m1; m2; "-"%char; d1; d2] =>
      match number_of [y1; y2; y3; y4], number_of [m1; m2], number_of [d1; d2] with
      | Some y, Some m, Some d =>
          if ((1 <=? m) && (m <=? 12) && (1 <=? d) && (d <=? days_in_month y m))%Z
          then Some (days_from_civil y m d * ns_per_day)%Z
          else None
      | _, _, _ => None
      end
  | _ => None
  end.

(** A column of ISO calendar dates. *)
Fixpoint iso_date_column (l : list string) : option (list Timestamp) :=
  match l with
  | [] => Some []
  | s :: l' =>
      match iso_date s, iso_date_column l' with
      | Some t, Some ts => Some (t :: ts)
      | _, _ => None
      end
  end.

(** [strftime('%Y-%m-%d')] of a timestamp between years 0 and 9999. *)
Definition iso_format (t : Timestamp) : string :=
  let '(y, m, d) := civil_from_days (t / ns_per_day) in
  string_of_list_ascii
    (pad_digits 4 y [] ++ "-"%char :: pad_digits 2 m [] ++ "-"%char :: pad_digits 2 d []).

(** *** Plain decimal numerals, [-12.50] *)

Fixpoint split_at_dot (l : list ascii) : list ascii * option (list ascii) :=
  match l with
  | [] => ([], None)
  | c :: l' =>
      if Ascii.eqb c "."%char then ([], Some l')
      else let '(a, b) := split_at_dot l' in (c :: a, b)
  end.

Definition unsigned_decimal (l : list ascii) : option Q :=
  match split_at_dot l with
  | (ip, None) => option_map inject_Z (number_of ip)
  | (ip, Some fp) =>
      match number_of ip, number_of fp with
      | Some i, Some f =>
          Some (inject_Z i + inject_Z f / inject_Z (10 ^ Z.of_nat (List.length fp)))
      | _, _ => None
      end
  end.

Definition decimal (s : string) : option Q :=
  match list_ascii_of_string s with
  | "-"%char :: l => option_map Qopp (unsigned_decimal l)
  | "+"%char :: l => unsigned_decimal l
  | l => unsigned_decimal l
  end.

(** ** The expense table *)

(** A cell of a text column is [None] when the value is missing (NaN). *)
Record Expense := {
  Date : Timestamp;
  Category : option string;
  Amount : Q;
  Description : option string
}.

Definition DataFrame := list Expense.

(** [df.empty] *)
Definition empty (df : DataFrame) : bool :=
  match df with
  | [] => true
  | _ :: _ => false
  end.

(** [df.loc[i]] on a [RangeIndex]. *)
Definition loc (df : DataFrame) (i : nat) : result Expense :=
  match nth_error df i with
  | Some r => Ok r
  | None => Raise KeyError
  end.

(** [df.loc[mask]]: the rows whose mask entry is true, in order. *)
Fixpoint loc_mask (df : DataFrame) (mask : list bool) : DataFrame :=
  match df, mask with
  | r :: df', b :: mask' => if b then r :: loc_mask df' mask' else loc_mask df' mask'
  | _, _ => []
  end.

(** [x < y] on amounts. *)
Definition Qlt_bool (x y : Q) : bool := negb (Qle_bool y x).

(** Scan for the position of the extreme value; a later element replaces
    the current best only when it is strictly better, so the first
    occurrence is kept. *)
Fixpoint first_extreme (better : Q -> Q -> bool) (best_i : nat) (best : Q)
    (i : nat) (l : list Q) : nat :=
  match l with
  | [] => best_i
  | x :: l' =>
      if better x best then first_extreme better i x (S i) l'
      else first_extreme better best_i best (S i) l'
  end.

(** [Series.idxmax] and [Series.idxmin]: the label of the first
    occurrence of the extreme; both raise on an empty series. *)
Definition idxmax (l : list Q) : result nat :=
  match l with
  | [] => Raise ValueError
  | x :: l' => Ok (first_extreme (fun a b => Qlt_bool b a) 0 x 1 l')
  end.

Definition idxmin (l : list Q) : result nat :=
  match l with
  | [] => Raise ValueError
  | x :: l' => Ok (first_extreme (fun a b => Qlt_bool a b) 0 x 1 l')
  end.

(** *** [groupby('Category')] *)

(** Groups are kept in ascending key order; the rows of a group keep the
    order they have in the table. *)
Fixpoint group_insert (k : string) (r : Expense) (gs : list (string * DataFrame))
    : list (string * DataFrame) :=
  match gs with
  | [] => [(k, [r])]
  | (k', rows) :: gs' =>
      match String.compare k k' with
      | Eq => (k', rows ++ [r]) :: gs'
      | Lt => (k, [r]) :: gs
      | Gt => (k', rows) :: group_insert k r gs'
      end
  end.

(** A row whose category is missing belongs to no group ([dropna=True],
    the default of [groupby]). *)
Definition groupby_Category (df : DataFrame) : list (string * DataFrame) :=
  fold_left (fun gs r =>
               match Category r with
               | Some k => group_insert k r gs
               | None => gs
               end) df [].

(** [Series.count]: the number of cells that are not missing. *)
Definition Series_count {A} (l : list (option A)) : nat :=
  List.length (List.filter (fun c => match c with Some _ => true | None => false end) l).

(** One row of [category_stats]. *)
Record StatRow := {
  Category_key : string;
  Total_Amount : Q;
  Transaction_Count : nat;
  Average_Amount : num;
  Description_Count : nat;
  Percentage : num
}.

(** [agg({'Amount': ['sum', 'count', 'mean'], 'Description': 'count'})]
    followed by [round(2)]; the percentage column is filled in later. *)
Definition agg_round (g : string * DataFrame) : StatRow :=
  let amounts := map Amount (snd g) in
  {| Category_key := fst g;
     Total_Amount := round2 (Series_sum amounts);
     Transaction_Count := List.length amounts;
     Average_Amount := num_round2 (Series_mean amounts);
     Description_Count := Series_count (map Description (snd g));
     Percentage := None |}.

(** [(Total_Amount / total_spending * 100).round(2)] *)
Definition with_percentage (total_spending : Q) (row : StatRow) : StatRow :=
  {| Category_key := Category_key row;
     Total_Amount := Total_Amount row;
     Transaction_Count := Transaction_Count row;
     Average_Amount := Average_Amount row;
     Description_Count := Description_Count row;
     Percentage :=
       num_round2 (num_scale 100 (np_div (Total_Amount row) total_spending)) |}.

(** *** [sort_values(..., ascending=False)] *)

(** The program sorts with the default [kind='quicksort'], which pandas
    documents as not stable: the result is the input reordered so that
    the key does not increase, and nothing is promised about the order
    of rows with equal keys. *)
Record Sorter := {
  sort_desc : forall A : Type, (A -> Q) -> list A -> list A;
  sort_desc_perm : forall A (key : A -> Q) (l : list A),
    Permutation l (sort_desc A key l);
  sort_desc_sorted : forall A (key : A -> Q) (l : list A),
    StronglySorted (fun a b => key b <= key a) (sort_desc A key l)
}.
Arguments sort_desc s {A} key l.

(** Insertion into a non-increasing list.  With [before_ties] the new
    element goes before the first element whose key is not larger, so
    ahead of the elements of equal key; without it, before the first
    element whose key is smaller, so behind them. *)
Fixpoint insert_desc {A} (key : A -> Q) (before_ties : bool) (x : A) (l : list A)
    : list A :=
  match l with
  | [] => [x]
  | y :: l' =>
      if (if before_ties then Qle_bool (key y) (key x) else Qlt_bool (key y) (key x))
      then x :: l
      else y :: insert_desc key before_ties x l'
  end.

Definition insertion_sort_desc {A} (key : A -> Q) (before_ties : bool) (l : list A)
    : list A :=
  fold_right (insert_desc key before_ties) [] l.

(** *** The sort behind [sort_values]

    [sort_values] hands the key column to [nargsort], which for a
    descending sort reverses the column, asks numpy for an ascending
    [argsort(kind='quicksort')] and reverses the answer.  What follows is
    numpy's portable argsort quicksort: median of three and a partition
    while a segment spans more than sixteen positions, insertion sort
    below that.  Builds of numpy that dispatch to a vectorised kernel
    may leave equal keys in another order; the order of distinct keys is
    the same in all of them. *)

Section Quicksort.

(** The key column; [tosort] holds positions of it. *)
Variable v : list Q.

Definition key_at (tosort : list nat) (i : nat) : Q :=
  nth (nth i tosort 0%nat) v 0.

Definition swap (tosort : list nat) (i j : nat) : list nat :=
  <[i := nth j tosort 0%nat]> (<[j := nth i tosort 0%nat]> tosort).

(** The inner loop of the insertion sort: positions holding a larger key
    move up one place until [vi] fits. *)
Fixpoint shift_down (fuel : nat) (tosort : list nat) (pl pj vi : nat) : list nat :=
  match fuel with
  | O => <[pj := vi]> tosort
  | S fuel' =>
      if (pl <? pj)%nat && Qlt_bool (nth vi v 0) (key_at tosort (pj - 1))
      then shift_down fuel' (<[pj := nth (pj - 1) tosort 0%nat]> tosort) pl (pj - 1) vi
      else <[pj := vi]> tosort
  end.

Fixpoint insertion_pass (count : nat) (tosort : list nat) (pl pi : nat) : list nat :=
  match count with
  | O => tosort
  | S count' =>
      insertion_pass count' (shift_down pi tosort pl pi (nth pi tosort 0%nat)) pl (S pi)
  end.

Definition insertion_sort_segment (tosort : list nat) (pl pr : nat) : list nat :=
  insertion_pass (pr - pl) tosort pl (S pl).

(** [do ++pi while (v[*pi] < vp)] and [do --pj while (vp < v[*pj])]. *)
Fixpoint scan_up (fuel : nat) (tosort : list nat) (vp : Q) (pi : nat) : nat :=
  match fuel with
  | O => pi
  | S fuel' =>
      if Qlt_bool (key_at tosort (S pi)) vp then scan_up fuel' tosort vp (S pi) else S pi
  end.

Fixpoint scan_down (fuel : nat) (tosort : list nat) (vp : Q) (pj : nat) : nat :=
  match fuel with
  | O => pj
  | S fuel' =>
      if Qlt_bool vp (key_at tosort (pj - 1)) then scan_down fuel' tosort vp (pj - 1)
      else (pj - 1)%nat
  end.

Fixpoint partition_loop (fuel : nat) (tosort : list nat) (vp : Q) (pi pj : nat)
    : list nat * nat :=
  match fuel with
  | O => (tosort, pi)
  | S fuel' =>
      let pi := scan_up (List.length tosort) tosort vp pi in
      let pj := scan_down (List.length tosort) tosort vp pj in
      if (pj <=? pi)%nat then (tosort, pi)
      else partition_loop fuel' (swap tosort pi pj) vp pi pj
  end.

Definition partition (tosort : list nat) (pl pr : nat) : list nat * nat :=
  let pm := (pl + (pr - pl) / 2)%nat in
  let tosort :=
    if Qlt_bool (key_at tosort pm) (key_at tosort pl) then swap tosort pm pl else tosort in
  let tosort :=
    if Qlt_bool (key_at tosort pr) (key_at tosort pm) then swap tosort pr pm else tosort in
  let tosort :=
    if Qlt_bool (key_at tosort pm) (key_at tosort pl) then swap tosort pm pl else tosort in
  let vp := key_at tosort pm in
  let pj := (pr - 1)%nat in
  let tosort := swap tosort pm pj in
  let '(tosort, pi) := partition_loop (List.length tosort) tosort vp pl pj in
  (swap tosort pi (pr - 1), pi).

(** numpy bounds the number of nested partitions by twice the bit length
    of the column and heap-sorts a segment past the bound.  The bound is
    the recursion depth here, and a segment past it is insertion-sorted;
    no table of this file comes near it. *)
Fixpoint aquicksort_from (depth : nat) (tosort : list nat) (pl pr : nat) : list nat :=
  match depth with
  | O => insertion_sort_segment tosort pl pr
  | S depth' =>
      if (16 <? pr - pl)%nat then
        let '(tosort, pi) := partition tosort pl pr in
        let tosort := aquicksort_from depth' tosort pl (pi - 1) in
        aquicksort_from depth' tosort (pi + 1) pr
      else insertion_sort_segment tosort pl pr
  end.

Definition aquicksort : list nat :=
  let num := List.length v in
  aquicksort_from (S (2 * Nat.log2 num)) (seq 0 num) 0 (num - 1).

End Quicksort.

(** [nargsort(items, ascending=False)]: the positions of [items] in the
    order of the sorted column. *)
Definition nargsort_desc (items : list Q) : list nat :=
  let n := List.length items in
  rev (map (fun i => (n - 1 - i)%nat) (aquicksort (rev items))).

(** The rows of [l] at the positions of [indexer], in that order. *)
Definition take_rows {A} (l : list A) (indexer : list nat) : list A :=
  flat_map (fun i => match nth_error l i with Some x => [x] | None => [] end) indexer.

Fixpoint non_increasing (ks : list Q) : bool :=
  match ks with
  | x :: (y :: _) as t => Qle_bool y x && non_increasing t
  | _ => true
  end.

Fixpoint nodupb (l : list nat) : bool :=
  match l with
  | [] => true
  | x :: l' => negb (existsb (Nat.eqb x) l') && nodupb l'
  end.

(** [indexer] lists each of the positions [0 .. n-1] once. *)
Definition reorders (indexer : list nat) (n : nat) : bool :=
  (List.length indexer =? n)%nat && forallb (fun i => (i <? n)%nat) indexer &&
  nodupb indexer.

(** The rows in the order of [nargsort_desc].  The result is checked, and
    the stable insertion sort stands in should the check fail, so that
    the function meets the contract of [Sorter] without a proof that the
    quicksort sorts. *)
Definition numpy_sort_desc {A} (key : A -> Q) (l : list A) : list A :=
  let indexer := nargsort_desc (map key l) in
  let sorted := take_rows l indexer in
  if reorders indexer (List.length l) && non_increasing (map key sorted) then sorted
  else insertion_sort_desc key true l.

(** ** Files *)

(** A row of a frame whose dates are still text: the frame that
    [read_csv] builds from a file, or the one that [pd.DataFrame] builds
    from the seed columns. *)
Record RawRow := {
  raw_Date : string;
  raw_Category : option string;
  raw_Amount : Q;
  raw_Description : option string
}.

(** A file is what [load_data] makes of it.  [Table rows] is a file that
    [read_csv] reads as the frame [rows] with the four columns;
    [Malformed] is a file on which [read_csv] or the look-up of the
    [Date] column raises.  A file that has a [Date] column but lacks one
    of the other three is neither and is outside the model. *)
Inductive File :=
| Table (rows : list RawRow)
| Malformed.

(** The texts that [read_csv] takes for a missing value (its default
    [na_values]). *)
Definition na_values : list string :=
  [""; "#N/A"; "#N/A N/A"; "#NA"; "-1.#IND"; "-1.#QNAN"; "-NaN"; "-nan";
   "1.#IND"; "1.#QNAN"; "<NA>"; "N/A"; "NA"; "NULL"; "NaN"; "None"; "n/a";
   "nan"; "null"]%string.

(** A text cell as [read_csv] reads it. *)
Definition read_text (s : string) : option string :=
  if existsb (String.eqb s) na_values then None else Some s.

(** A cell of a text column after it was written by [to_csv] and read
    again: a missing value is written as the empty text. *)
Definition reread (c : option string) : option string :=
  match c with
  | Some s => read_text s
  | None => None
  end.

(** The file system is the files by path and the paths that cannot be
    written. *)
Record FS := {
  files : gmap string File;
  locked : gset string
}.

Definition exists_path (fs : FS) (path : string) : bool :=
  match files fs !! path with
  | Some _ => true
  | None => false
  end.

Definition read_csv (fs : FS) (path : string) : result (list RawRow) :=
  match files fs !! path with
  | Some (Table rows) => Ok rows
  | _ => Raise ValueError
  end.

Definition write_file (fs : FS) (path : string) (f : File) : result FS :=
  if decide (path ∈ locked fs) then Raise OSError
  else Ok {| files := <[path := f]> (files fs); locked := locked fs |}.

(** ** The tracker *)

Record ExpenseTracker := {
  csv_file : string;
  df : DataFrame
}.

Definition set_df (self : ExpenseTracker) (d : DataFrame) : ExpenseTracker :=
  {| csv_file := csv_file self; df := d |}.

Inductive SaveOutcome :=
| Saved          (* "Data saved to ..." *)
| SaveFailed.    (* "Error saving data: ..." *)

Inductive LoadOutcome :=
| Loaded (n : nat)                     (* "Successfully loaded n expenses" *)
| CreatedSample (saved : SaveOutcome) (n : nat).  (* "Created sample data with n entries" *)

(** [sys.exit] ends the process; otherwise the call returns. *)
Inductive process (A : Type) :=
| Returns (a : A)
| Exit (code : Z).
Arguments Returns {A} a.
Arguments Exit {A} code.

Inductive OverviewReport :=
| NoExpensesFound                      (* "No expenses found." *)
| Overview (total_amount : Q) (total_transactions : nat) (average_expense : num)
    (highest_idx : nat) (highest : Expense) (lowest_idx : nat) (lowest : Expense).

Inductive FilterReport :=
| InvalidDateFormat                    (* "Invalid date format. ..." *)
| NoExpensesBetween                    (* "No expenses found between ..." *)
| Found (filtered_df : DataFrame) (total : Q) (category_totals : list (string * Q * num)).

Inductive AddOutcome :=
| EmptyField                           (* "Category and description cannot be empty." *)
| NonPositiveAmount                    (* "Amount must be positive." *)
| InvalidInput                         (* "Invalid input: ..." *)
| Added (new_expense : Expense) (saved : SaveOutcome).

(** The rejections of a new record that the specification calls
    [ValidationError]. *)
Definition is_validation_error (o : AddOutcome) : bool :=
  match o with
  | EmptyField | NonPositiveAmount => true
  | _ => false
  end.

(** The seed columns of [create_sample_data]. *)
Definition sample_data : list RawRow :=
  [ {| raw_Date := "2025-06-10"; raw_Category := Some "Food"; raw_Amount := 150;
       raw_Description := Some "Pizza at Dominos" |};
    {| raw_Date := "2025-06-11"; raw_Category := Some "Transport"; raw_Amount := 50;
       raw_Description := Some "Rickshaw fare" |};
    {| raw_Date := "2025-06-12"; raw_Category := Some "Rent"; raw_Amount := 5000;
       raw_Description := Some "June Rent" |};
    {| raw_Date := "2025-06-12"; raw_Category := Some "Utilities"; raw_Amount := 200;
       raw_Description := Some "Electricity Bill" |};
    {| raw_Date := "2025-06-13"; raw_Category := Some "Food"; raw_Amount := 300;
       raw_Description := Some "Grocery shopping" |};
    {| raw_Date := "2025-06-14"; raw_Category := Some "Entertainment"; raw_Amount := 800;
       raw_Description := Some "Movie tickets" |};
    {| raw_Date := "2025-06-15"; raw_Category := Some "Transport"; raw_Amount := 75;
       raw_Description := Some "Bus fare" |} ].

(** The frame [rows] with its [Date] column replaced by [dates]. *)
Fixpoint with_dates (rows : list RawRow) (dates : list Timestamp) : DataFrame :=
  match rows, dates with
  | r :: rows', t :: dates' =>
      {| Date := t; Category := raw_Category r; Amount := raw_Amount r;
         Description := raw_Description r |} :: with_dates rows' dates'
  | _, _ => []
  end.

Section Program.

(** [float(s)]: [None] is [ValueError].  The texts that [float] reads as
    NaN or as an infinity are outside the model: an amount is finite. *)
Variable float : string -> option Q.

(** [pd.to_datetime(s)] on one text: [None] is [ValueError]. *)
Variable to_datetime : string -> option Timestamp.

(** [pd.to_datetime] on a column of texts, which gives one date per
    cell: the format is settled for the column as a whole, so this is
    not the call on one text repeated cell by cell.  [None] is
    [ValueError]. *)
Variable to_datetime_series : list string -> option (list Timestamp).

(** [strftime('%Y-%m-%d')] as [to_csv] applies it to the date column. *)
Variable strftime : Timestamp -> string.

(** The sort behind [sort_values]. *)
Variable quicksort : Sorter.

Definition parse_date (s : string) : result Timestamp :=
  match to_datetime s with
  | Some t => Ok t
  | None => Raise ValueError
  end.

(** [df['Date'] = pd.to_datetime(df['Date'])] *)
Definition to_datetime_column (rows : list RawRow) : result DataFrame :=
  match to_datetime_series (map raw_Date rows) with
  | Some dates => Ok (with_dates rows dates)
  | None => Raise ValueError
  end.

(** [df.to_csv(index=False, date_format='%Y-%m-%d')]: the file is given
    by the frame that [read_csv] builds from it. *)
Definition to_csv (d : DataFrame) : File :=
  Table (map (fun r => {| raw_Date := strftime (Date r);
                          raw_Category := reread (Category r);
                          raw_Amount := Amount r;
                          raw_Description := reread (Description r) |}) d).

Definition save_data (self : ExpenseTracker) (fs : FS) : FS * SaveOutcome :=
  match write_file fs (csv_file self) (to_csv (df self)) with
  | Ok fs' => (fs', Saved)
  | Raise _ => (fs, SaveFailed)
  end.

Definition create_sample_data (self : ExpenseTracker) (fs : FS)
    : result (ExpenseTracker * FS * LoadOutcome) :=
  try d <- to_datetime_column sample_data in
  let self' := set_df self d in
  let '(fs', saved) := save_data self' fs in
  Ok (self', fs', CreatedSample saved (List.length d)).

Definition load_data (self : ExpenseTracker) (fs : FS)
    : process (ExpenseTracker * FS * LoadOutcome) :=
  let attempt :=
    if exists_path fs (csv_file self) then
      try rows <- read_csv fs (csv_file self) in
      try d <- to_datetime_column rows in
      Ok (set_df self d, fs, Loaded (List.length d))
    else create_sample_data self fs in
  match attempt with
  | Ok r => Returns r
  | Raise _ => Exit 1
  end.

(** [ExpenseTracker(csv_file)]: the constructor loads at once. *)
Definition init (path : string) (fs : FS)
    : process (ExpenseTracker * FS * LoadOutcome) :=
  load_data {| csv_file := path; df := [] |} fs.

(** The mean is printed with [:,.2f], that is, rounded to two places. *)
Definition display_total_overview (self : ExpenseTracker) : result OverviewReport :=
  if empty (df self) then Ok NoExpensesFound
  else
    let amounts := map Amount (df self) in
    let total_amount := Series_sum amounts in
    let total_transactions := List.length (df self) in
    let average_expense := Series_mean amounts in
    try highest_idx <- idxmax amounts in
    try lowest_idx <- idxmin amounts in
    try highest <- loc (df self) highest_idx in
    try lowest <- loc (df self) lowest_idx in
    Ok (Overview total_amount total_transactions average_expense
          highest_idx highest lowest_idx lowest).

Definition category_stats_of (d : DataFrame) : list StatRow :=
  let category_stats := map agg_round (groupby_Category d) in
  let total_spending := Series_sum (map Amount d) in
  let category_stats := map (with_percentage total_spending) category_stats in
  sort_desc quicksort Total_Amount category_stats.

(** Returns [None] after "No expenses found for analysis.". *)
Definition category_analysis (self : ExpenseTracker) : option (list StatRow) :=
  if empty (df self) then None
  else Some (category_stats_of (df self)).

(** [groupby('Category')['Amount'].sum().sort_values(ascending=False)] *)
Definition category_totals_of (d : DataFrame) : list (string * Q) :=
  sort_desc quicksort snd
    (map (fun g => (fst g, Series_sum (map Amount (snd g)))) (groupby_Category d)).

(** The two console lines are arguments. *)
Definition filter_by_date (self : ExpenseTracker) (start_in end_in : string)
    : FilterReport :=
  let start_date := strip start_in in
  let end_date := strip end_in in
  match parse_date start_date with
  | Raise _ => InvalidDateFormat
  | Ok start_dt =>
      match parse_date end_date with
      | Raise _ => InvalidDateFormat
      | Ok end_dt =>
          let mask :=
            map (fun r => (Date r >=? start_dt)%Z && (Date r <=? end_dt)%Z) (df self) in
          let filtered_df := loc_mask (df self) mask in
          if empty filtered_df then NoExpensesBetween
          else
            let total := Series_sum (map Amount filtered_df) in
            Found filtered_df total
              (if (0 <? List.length filtered_df)%nat then
                 map (fun ca => (fst ca, snd ca, num_scale 100 (np_div (snd ca) total)))
                   (category_totals_of filtered_df)
               else [])
      end
  end.

(** The four console lines are arguments; [today] is what
    [datetime.now().strftime('%Y-%m-%d')] would give. *)
Definition add_new_expense (self : ExpenseTracker) (fs : FS) (today : string)
    (date_in category_in amount_in description_in : string)
    : ExpenseTracker * FS * AddOutcome :=
  let date := strip date_in in
  let date := if String.eqb date "" then today else date in
  let category := strip category_in in
  match float (strip amount_in) with
  | None => (self, fs, InvalidInput)
  | Some amount =>
      let description := strip description_in in
      if String.eqb category "" || String.eqb description "" then (self, fs, EmptyField)
      else if Qle_bool amount 0 then (self, fs, NonPositiveAmount)
      else
        match parse_date date with
        | Raise _ => (self, fs, InvalidInput)
        | Ok t =>
            let new_expense :=
              {| Date := t; Category := Some category; Amount := amount;
                 Description := Some description |} in
            let self' := set_df self (df self ++ [new_expense]) in
            let '(fs', saved) := save_data self' fs in
            (self', fs', Added new_expense saved)
        end
  end.

End Program.

(** ** The other menu entries *)

(** [Series.min] and [Series.max] of a date column; nothing ([NaT]) on
    an empty one. *)
Definition Series_min (l : list Timestamp) : option Timestamp :=
  match l with
  | [] => None
  | t :: l' => Some (fold_left Z.min l' t)
  end.

Definition Series_max (l : list Timestamp) : option Timestamp :=
  match l with
  | [] => None
  | t :: l' => Some (fold_left Z.max l' t)
  end.

Module Report.

(** One row of [summary_report.csv]; [label] is the index column. *)
Record Row := {
  label : string;
  Total_Amount : Q;
  Transaction_Count : nat;
  Average_Amount : num;
  First_Date : option Timestamp;
  Last_Date : option Timestamp;
  Percentage : num
}.

End Report.

Inductive ViewReport :=
| NoExpensesToView                     (* "No expenses found." *)
| AllExpenses (sorted_df : DataFrame) (count : nat) (total : Q).

Inductive ChartOutcome :=
| NoDataForChart                       (* "No data available for pie chart." *)
| ChartSaved (category_totals : list (string * Q)).

Inductive ExportOutcome :=
| ExportError                          (* "Error exporting summary: ..." *)
| Exported (full_report : list Report.Row) (categories transactions : nat)
    (total_spending : Q).

(** What one pass of the menu loop prints. *)
Inductive Shown :=
| ShowOverview (report : OverviewReport)
| ShowCategories (stats : option (list StatRow))
| ShowChart (chart : ChartOutcome)
| ShowFilter (report : FilterReport)
| ShowFilterError                      (* "Error filtering data: ..." *)
| ShowAdd (outcome : AddOutcome)
| ShowAddError                         (* "Error adding expense: ..." *)
| ShowExport (outcome : ExportOutcome)
| ShowLoad (outcome : LoadOutcome)
| ShowAll (view : ViewReport)
| ShowGoodbye                          (* choice 9 *)
| ShowInvalidChoice                    (* "Invalid choice. Please select 1-9." *)
| ShowError.                           (* "An error occurred: ..." *)

(** The tracker, the files and the lines still to be typed.  [input]
    on an empty console raises [EOFError].  The console holds lines
    only: an interrupt from the keyboard is not part of the model. *)
Record Session := {
  tracker : ExpenseTracker;
  disk : FS;
  console : list string
}.

(** How a pass of the loop, and the loop, can end: the loop goes on,
    [break], [sys.exit], or an exception that [run] does not catch (the
    [EOFError] of the [input] inside its own handler). *)
Inductive Next :=
| Again (s : Session)
| Break (s : Session)
| SysExit (code : Z) (fs : FS)
| Uncaught (s : Session).

Section Menu.

Variable float : string -> option Q.
Variable to_datetime : string -> option Timestamp.
Variable to_datetime_series : list string -> option (list Timestamp).
Variable strftime : Timestamp -> string.
Variable quicksort : Sorter.

(** What the pandas pipeline of [export_summary_report] yields on a frame
    without rows; it depends on the column types of the empty frame. *)
Variable report_of_empty : result (list Report.Row).

(** Whether matplotlib draws the pie of these totals without raising. *)
Variable render_pie : list (string * Q) -> bool.

(** The day that [datetime.now()] gives during the n-th pass of the loop. *)
Variable today : nat -> string.

(** [sort_values('Date', ascending=False)], then the listing with its
    count and total. *)
Definition view_all_expenses (self : ExpenseTracker) : ViewReport :=
  if empty (df self) then NoExpensesToView
  else
    let sorted_df := sort_desc quicksort (fun r => inject_Z (Date r)) (df self) in
    AllExpenses sorted_df (List.length sorted_df) (Series_sum (map Amount sorted_df)).

(** The pie is drawn, saved as [expense_pie_chart.png] and shown.  An
    exception of matplotlib or of the file system is not caught here. *)
Definition create_pie_chart (self : ExpenseTracker) (fs : FS)
    : result (FS * ChartOutcome) :=
  if empty (df self) then Ok (fs, NoDataForChart)
  else
    let category_totals := category_totals_of quicksort (df self) in
    if render_pie category_totals then
      try fs' <- write_file fs "expense_pie_chart.png" Malformed in
      Ok (fs', ChartSaved category_totals)
    else Raise ValueError.

(** [groupby('Category').agg({'Amount': ['sum', 'count', 'mean'],
    'Date': ['min', 'max']}).round(2)] with its percentage column; the
    rows stay in the key order of [groupby]. *)
Definition report_category_stats (d : DataFrame) : list Report.Row :=
  let total_spending := Series_sum (map Amount d) in
  map (fun g =>
         let amounts := map Amount (snd g) in
         let total := round2 (Series_sum amounts) in
         {| Report.label := fst g;
            Report.Total_Amount := total;
            Report.Transaction_Count := List.length amounts;
            Report.Average_Amount := num_round2 (Series_mean amounts);
            Report.First_Date := Series_min (map Date (snd g));
            Report.Last_Date := Series_max (map Date (snd g));
            Report.Percentage :=
              num_round2 (num_scale 100 (np_div total total_spending)) |})
    (groupby_Category d).

(** The [TOTAL] row. *)
Definition report_summary_stats (d : DataFrame) : Report.Row :=
  {| Report.label := "TOTAL";
     Report.Total_Amount := Series_sum (map Amount d);
     Report.Transaction_Count := List.length d;
     Report.Average_Amount := Series_mean (map Amount d);
     Report.First_Date := Series_min (map Date d);
     Report.Last_Date := Series_max (map Date d);
     Report.Percentage := Some 100 |}.

Definition full_report_of (d : DataFrame) : result (list Report.Row) :=
  match d with
  | [] => report_of_empty
  | _ :: _ => Ok (report_category_stats d ++ [report_summary_stats d])
  end.

(** The report file is not an expense table: it has no [Date] column. *)
Definition export_summary_report (self : ExpenseTracker) (fs : FS)
    : FS * ExportOutcome :=
  match full_report_of (df self) with
  | Raise _ => (fs, ExportError)
  | Ok full_report =>
      match write_file fs "summary_report.csv" Malformed with
      | Raise _ => (fs, ExportError)
      | Ok fs' =>
          (fs', Exported full_report (List.length (groupby_Category (df self)))
                  (List.length (df self)) (Series_sum (map Amount (df self))))
      end
  end.

(** *** The menu loop *)

Definition with_console (s : Session) (lines : list string) : Session :=
  {| tracker := tracker s; disk := disk s; console := lines |}.

(** [input("Press Enter to continue...")] after choices 1, 2, 4, 6, 8.
    At the end of the console the [EOFError] reaches the handler of
    [run], whose own [input] raises again. *)
Definition pause (shown : list Shown) (s : Session) : list Shown * Next :=
  match console s with
  | [] => (shown ++ [ShowError], Uncaught s)
  | _ :: rest => (shown, Again (with_console s rest))
  end.

(** The handler [except Exception] of [run]. *)
Definition recover (shown : list Shown) (s : Session) : list Shown * Next :=
  match console s with
  | [] => (shown ++ [ShowError], Uncaught s)
  | _ :: rest => (shown ++ [ShowError], Again (with_console s rest))
  end.

(** Choice 4: two lines are read before anything is parsed. *)
Definition menu_filter (s : Session) : list Shown * Next :=
  match console s with
  | start_in :: end_in :: rest =>
      pause [ShowFilter (filter_by_date to_datetime quicksort (tracker s) start_in end_in)]
        (with_console s rest)
  | _ => pause [ShowFilterError] (with_console s [])
  end.

(** Choice 5: the description is read only when the amount parsed. *)
Definition menu_add (n : nat) (s : Session) : list Shown * Next :=
  let add := add_new_expense float to_datetime strftime (tracker s) (disk s) (today n) in
  let done (r : ExpenseTracker * FS * AddOutcome) (rest : list string) :=
    let '(self', fs', outcome) := r in
    ([ShowAdd outcome], Again {| tracker := self'; disk := fs'; console := rest |}) in
  match console s with
  | date_in :: category_in :: amount_in :: rest =>
      match float (strip amount_in) with
      | None => done (add date_in category_in amount_in EmptyString) rest
      | Some _ =>
          match rest with
          | description_in :: rest' =>
              done (add date_in category_in amount_in description_in) rest'
          | [] => ([ShowAddError], Again (with_console s []))
          end
      end
  | _ => ([ShowAddError], Again (with_console s []))
  end.

(** One pass of [while True] in [run]; [n] counts the passes. *)
Definition step (n : nat) (s : Session) : list Shown * Next :=
  match console s with
  | [] => ([ShowError], Uncaught s)
  | line :: rest =>
      let s := with_console s rest in
      let choice := strip line in
      if String.eqb choice "1" then
        match display_total_overview (tracker s) with
        | Ok report => pause [ShowOverview report] s
        | Raise _ => recover [] s
        end
      else if String.eqb choice "2" then
        pause [ShowCategories (category_analysis quicksort (tracker s))] s
      else if String.eqb choice "3" then
        match create_pie_chart (tracker s) (disk s) with
        | Ok (fs', chart) =>
            ([ShowChart chart],
             Again {| tracker := tracker s; disk := fs'; console := console s |})
        | Raise _ => recover [] s
        end
      else if String.eqb choice "4" then menu_filter s
      else if String.eqb choice "5" then menu_add n s
      else if String.eqb choice "6" then
        let '(fs', outcome) := export_summary_report (tracker s) (disk s) in
        pause [ShowExport outcome]
          {| tracker := tracker s; disk := fs'; console := console s |}
      else if String.eqb choice "7" then
        match load_data to_datetime_series strftime (tracker s) (disk s) with
        | Returns (self', fs', outcome) =>
            ([ShowLoad outcome],
             Again {| tracker := self'; disk := fs'; console := console s |})
        | Exit code => ([], SysExit code (disk s))
        end
      else if String.eqb choice "8" then
        pause [ShowAll (view_all_expenses (tracker s))] s
      else if String.eqb choice "9" then ([ShowGoodbye], Break s)
      else ([ShowInvalidChoice], Again s)
  end.

(** [run]: the passes in order, with what they print.  [None] when
    [fuel] passes were not enough. *)
Fixpoint run_from (fuel n : nat) (s : Session) : list Shown * option Next :=
  match fuel with
  | O => ([], None)
  | S fuel' =>
      match step n s with
      | (shown, Again s') =>
          let '(shown', ending) := run_from fuel' (S n) s' in
          (shown ++ shown', ending)
      | (shown, ending) => (shown, Some ending)
      end
  end.

(** Every pass reads a line, so one pass more than the console has
    lines is enough. *)
Definition run (s : Session) : list Shown * option Next :=
  run_from (S (List.length (console s))) 0 s.

(** [main]: the tracker of [expenses.csv] is built and run; an exception
    that leaves [run] ends the process with code 1. *)
Definition main (fs : FS) (lines : list string) : list Shown * option Next :=
  match init to_datetime_series strftime "expenses.csv" fs with
  | Exit code => ([], Some (SysExit code fs))
  | Returns (self, fs', outcome) =>
      match run {| tracker := self; disk := fs'; console := lines |} with
      | (shown, Some (Uncaught s)) => (ShowLoad outcome :: shown, Some (SysExit 1 (disk s)))
      | (shown, ending) => (ShowLoad outcome :: shown, ending)
      end
  end.

End Menu.

(** ** Vocabulary of the statements *)

(** A value with at most two decimal places. *)
Definition whole_cents (x : Q) : Prop := exists n : Z, x * 100 == inject_Z n.

(** The rows a filter report lists. *)
Definition matches (report : FilterReport) : DataFrame :=
  match report with
  | Found filtered_df _ _ => filtered_df
  | _ => []
  end.

Definition in_range (start_dt end_dt : Timestamp) (r : Expense) : bool :=
  (start_dt <=? Date r)%Z && (Date r <=? end_dt)%Z.

Definition group_sum (g : string * DataFrame) : Q := Series_sum (map Amount (snd g)).

Definition key_lt (a b : string * DataFrame) : Prop :=
  String.compare (fst a) (fst b) = Lt.

(** The row has the category [k]. *)
Definition category_is (k : string) (r : Expense) : bool :=
  match Category r with
  | Some c => String.eqb c k
  | None => false
  end.

Definition rows_of (k : string) (d : DataFrame) : DataFrame :=
  List.filter (category_is k) d.

Definition has_category (r : Expense) : Prop := Category r <> None.

(** The rows that [groupby('Category')] keeps. *)
Definition labelled (d : DataFrame) : DataFrame :=
  List.filter (fun r => match Category r with Some _ => true | None => false end) d.

(** The amounts add up, in absolute value, to less than 2^63: no sum
    over rows of the table leaves the range of [int64], nor that of
    [float64]. *)
Definition sums_in_range (d : DataFrame) : Prop :=
  Series_sum (map (fun r => Qabs (Amount r)) d) < inject_Z (2 ^ 63).

(** The rows of [category_stats] before they are sorted. *)
Definition unsorted_stats (d : DataFrame) : list StatRow :=
  map (with_percentage (Series_sum (map Amount d)))
    (map agg_round (groupby_Category d)).

(** The order that the specification asks of the analysis: totals do
    not increase, and of two rows with equal totals the one with the
    smaller category name comes first. *)
Definition total_desc_then_name (a b : StatRow) : Prop :=
  Total_Amount b <= Total_Amount a /\
  (Total_Amount a == Total_Amount b ->
   String.compare (Category_key a) (Category_key b) = Lt).

Definition exact_percentage (total_spending : Q) (g : string * DataFrame) : Q :=
  group_sum g / total_spending * 100.

Definition rounded_percentage (total_spending : Q) (row : StatRow) : Q :=
  round2 (Total_Amount row / total_spending * 100).

(** [k] is the first position of [l] holding a best value: no value of
    [l] is better than the one at [k], and every value before [k] is
    strictly worse. *)
Definition first_best (worse not_better : Q -> Q -> Prop) (l : list Q) (k : nat) : Prop :=
  exists v, nth_error l k = Some v /\
    (forall x, In x l -> not_better x v) /\
    (forall j x, (j < k)%nat -> nth_error l j = Some x -> worse x v).

(** ** Tables used to instantiate the statements *)

Definition midnight (y m d : Z) : Timestamp := (days_from_civil y m d * ns_per_day)%Z.

(** The table that [create_sample_data] builds. *)
Definition sample_df : DataFrame :=
  [ {| Date := midnight 2025 6 10; Category := Some "Food"; Amount := 150;
       Description := Some "Pizza at Dominos" |};
    {| Date := midnight 2025 6 11; Category := Some "Transport"; Amount := 50;
       Description := Some "Rickshaw fare" |};
    {| Date := midnight 2025 6 12; Category := Some "Rent"; Amount := 5000;
       Description := Some "June Rent" |};
    {| Date := midnight 2025 6 12; Category := Some "Utilities"; Amount := 200;
       Description := Some "Electricity Bill" |};
    {| Date := midnight 2025 6 13; Category := Some "Food"; Amount := 300;
       Description := Some "Grocery shopping" |};
    {| Date := midnight 2025 6 14; Category := Some "Entertainment"; Amount := 800;
       Description := Some "Movie tickets" |};
    {| Date := midnight 2025 6 15; Category := Some "Transport"; Amount := 75;
       Description := Some "Bus fare" |} ].

Definition sample_tracker : ExpenseTracker :=
  {| csv_file := "expenses.csv"; df := sample_df |}.

Definition no_files : FS := {| files := ∅; locked := ∅ |}.

Definition two_tied : ExpenseTracker :=
  {| csv_file := "expenses.csv";
     df := [ {| Date := midnight 2025 6 10; Category := Some "Food"; Amount := 150;
                Description := Some "Pizza at Dominos" |};
             {| Date := midnight 2025 6 11; Category := Some "Transport"; Amount := 150;
                Description := Some "Rickshaw fare" |} ] |}.

(** Twenty categories, one row of 10 each. *)
Definition many_tied : ExpenseTracker :=
  {| csv_file := "expenses.csv";
     df := map (fun c => {| Date := midnight 2025 6 10; Category := Some c; Amount := 10;
                            Description := Some "x"%string |})
             ["C01"; "C02"; "C03"; "C04"; "C05"; "C06"; "C07"; "C08"; "C09"; "C10";
              "C11"; "C12"; "C13"; "C14"; "C15"; "C16"; "C17"; "C18"; "C19";
              "C20"]%string |}.

(** Two rows whose amounts cancel. *)
Definition zero_total : ExpenseTracker :=
  {| csv_file := "expenses.csv";
     df := [ {| Date := midnight 2025 6 10; Category := Some "A"; Amount := -20;
                Description := Some "x" |};
             {| Date := midnight 2025 6 11; Category := Some "B"; Amount := 20;
                Description := Some "x" |} ] |}.

(** A row whose category cell was empty in the file, and a row of Food. *)
Definition unlabelled : ExpenseTracker :=
  {| csv_file := "expenses.csv";
     df := [ {| Date := midnight 2025 6 10; Category := None; Amount := 5;
                Description := Some "Tea" |};
             {| Date := midnight 2025 6 11; Category := Some "Food"; Amount := 10;
                Description := Some "Lunch" |} ] |}.

Definition one_small : ExpenseTracker :=
  {| csv_file := "expenses.csv";
     df := [ {| Date := midnight 2025 6 10; Category := Some "Food"; Amount := 0.006;
                Description := Some "Sweet" |} ] |}.

(** * Properties *)

(** ** Rounding *)

Lemma Qfloor_bounds (x : Q) :
  inject_Z (Qfloor x) <= x /\ x < inject_Z (Qfloor x) + 1.
Proof.
  split; [apply Qfloor_le|].
  pose proof (Qlt_floor x) as H. rewrite inject_Z_plus in H. exact H.
Qed.

Lemma rint_cases (x : Q) :
  let f := Qfloor x in
  (rint x = f /\ x - inject_Z f <= 1 # 2) \/
  (rint x = (f + 1)%Z /\ 1 # 2 <= x - inject_Z f).
Proof.
  intros f. unfold rint. fold f.
  destruct (Qcompare_spec (x - inject_Z f) (1 # 2)) as [E|L|G].
  - destruct (Z.even f); [left|right]; split; auto; rewrite E; apply Qle_refl.
  - left. split; [reflexivity|apply Qlt_le_weak, L].
  - right. split; [reflexivity|apply Qlt_le_weak, G].
Qed.

Lemma rint_error (x : Q) : Qabs (inject_Z (rint x) - x) <= 1 # 2.
Proof.
  destruct (Qfloor_bounds x) as [Hlo Hhi].
  apply Qabs_Qle_condition.
  destruct (rint_cases x) as [[-> H]|[-> H]]; rewrite ?inject_Z_plus;
    change (inject_Z 1) with 1; split; lra.
Qed.

Lemma rint_inject_Z (n : Z) : rint (inject_Z n) = n.
Proof.
  unfold rint. rewrite Qfloor_Z.
  destruct (Qcompare_spec (inject_Z n - inject_Z n) (1 # 2)) as [E|L|G];
    [lra|reflexivity|lra].
Qed.

Lemma rint_mono (x y : Q) : x <= y -> (rint x <= rint y)%Z.
Proof.
  intros Hxy.
  pose proof (Qfloor_resp_le _ _ Hxy) as Hf.
  destruct (Qfloor_bounds x) as [Hxl Hxh], (Qfloor_bounds y) as [Hyl Hyh].
  destruct (Z.eq_dec (Qfloor x) (Qfloor y)) as [E|N].
  - unfold rint. rewrite <- E.
    destruct (Qcompare_spec (x - inject_Z (Qfloor x)) (1 # 2)) as [Ex|Lx|Gx];
      destruct (Qcompare_spec (y - inject_Z (Qfloor x)) (1 # 2)) as [Ey|Ly|Gy];
      try lia; try lra; destruct (Z.even (Qfloor x)); lia.
  - assert (Qfloor x + 1 <= Qfloor y)%Z as Hlt by lia.
    destruct (rint_cases x) as [[-> _]|[-> _]], (rint_cases y) as [[-> _]|[-> _]]; lia.
Qed.

Global Instance rint_Proper : Proper (Qeq ==> eq) rint.
Proof.
  intros x y E. apply Z.le_antisymm; apply rint_mono; rewrite E; apply Qle_refl.
Qed.

Lemma round2_as_mult (x : Q) : round2 x == inject_Z (rint (x * 100)) * (1 # 100).
Proof. unfold round2. rewrite Qmake_Qdiv. reflexivity. Qed.

Global Instance round2_Proper : Proper (Qeq ==> Qeq) round2.
Proof. intros x y E. unfold round2. rewrite E. reflexivity. Qed.

(** Rounding to two places moves a value by at most half a cent. *)
Lemma round2_error (x : Q) : Qabs (round2 x - x) <= 1 # 200.
Proof.
  pose proof (rint_error (x * 100)) as H.
  apply Qabs_Qle_condition in H. apply Qabs_Qle_condition.
  rewrite round2_as_mult. split; lra.
Qed.

Lemma round2_mono (x y : Q) : x <= y -> round2 x <= round2 y.
Proof.
  intros H. rewrite !round2_as_mult.
  assert (inject_Z (rint (x * 100)) <= inject_Z (rint (y * 100))) as Hz.
  { rewrite <- Zle_Qle. apply rint_mono. lra. }
  lra.
Qed.

Lemma round2_whole_cents (x : Q) : whole_cents x -> round2 x == x.
Proof.
  intros [n Hn]. rewrite round2_as_mult, Hn, rint_inject_Z, <- Hn. lra.
Qed.

Lemma round2_inject_Z (n : Z) : round2 (inject_Z n) == inject_Z n.
Proof.
  apply round2_whole_cents. exists (n * 100)%Z. rewrite inject_Z_mult. reflexivity.
Qed.

(** ** Sorting *)

Lemma Qlt_bool_iff (x y : Q) : Qlt_bool x y = true <-> x < y.
Proof.
  unfold Qlt_bool. rewrite negb_true_iff, <- not_true_iff_false, Qle_bool_iff.
  split; [apply Qnot_le_lt|apply Qlt_not_le].
Qed.

Lemma Qlt_bool_false_iff (x y : Q) : Qlt_bool x y = false <-> y <= x.
Proof.
  unfold Qlt_bool. rewrite negb_false_iff. apply Qle_bool_iff.
Qed.

Section InsertionSort.

Context {A : Type} (key : A -> Q) (before_ties : bool).

Let not_above (a b : A) : Prop := key b <= key a.

Lemma insert_desc_perm (x : A) (l : list A) :
  Permutation (x :: l) (insert_desc key before_ties x l).
Proof.
  induction l as [|y l IH]; simpl; [reflexivity|].
  destruct (if before_ties then _ else _); [reflexivity|].
  rewrite perm_swap. apply perm_skip, IH.
Qed.

Lemma insert_desc_sorted (x : A) (l : list A) :
  StronglySorted not_above l ->
  StronglySorted not_above (insert_desc key before_ties x l).
Proof.
  induction 1 as [|y l Hs IH Hy]; simpl.
  - repeat constructor.
  - destruct (if before_ties then _ else _) eqn:T.
    + assert (key y <= key x) as Hyx.
      { destruct before_ties;
          [apply Qle_bool_iff, T|apply Qlt_le_weak, Qlt_bool_iff, T]. }
      constructor; [constructor; assumption|].
      constructor; [exact Hyx|].
      eapply List.Forall_impl; [|exact Hy].
      intros z Hz. unfold not_above in *. eapply Qle_trans; eassumption.
    + assert (key x <= key y) as Hxy.
      { destruct before_ties; [|apply Qlt_bool_false_iff, T].
        apply Qlt_le_weak, Qnot_le_lt. rewrite <- Qle_bool_iff, T. discriminate. }
      constructor; [exact IH|].
      eapply Permutation_Forall; [apply insert_desc_perm|].
      constructor; assumption.
Qed.

Lemma insertion_sort_desc_perm (l : list A) :
  Permutation l (insertion_sort_desc key before_ties l).
Proof.
  induction l as [|x l IH]; simpl; [reflexivity|].
  etransitivity; [apply perm_skip, IH|apply insert_desc_perm].
Qed.

Lemma insertion_sort_desc_sorted (l : list A) :
  StronglySorted not_above (insertion_sort_desc key before_ties l).
Proof.
  induction l as [|x l IH]; simpl; [constructor|apply insert_desc_sorted, IH].
Qed.

End InsertionSort.

(** Insertion before ties keeps rows of equal key in their input order:
    a list in strict [name] order is sorted by key with ties in [name]
    order. *)
Section StableInsertion.

Context {A : Type} (key : A -> Q) (name : A -> string).

Let name_lt (a b : A) : Prop := String.compare (name a) (name b) = Lt.

Let key_then_name (a b : A) : Prop :=
  key b <= key a /\ (key a == key b -> name_lt a b).

Lemma insert_desc_stable (x : A) (l : list A) :
  StronglySorted key_then_name l ->
  Forall (name_lt x) l ->
  StronglySorted key_then_name (insert_desc key true x l).
Proof.
  induction 1 as [|y l Hs IH Hy]; intros Hx; simpl.
  - repeat constructor.
  - apply Forall_cons_iff in Hx as [Hxy Hxl].
    destruct (Qle_bool (key y) (key x)) eqn:T.
    + apply Qle_bool_iff in T.
      constructor; [constructor; assumption|].
      constructor; [split; [exact T|intros _; exact Hxy]|].
      rewrite List.Forall_forall in Hy, Hxl. apply List.Forall_forall.
      intros z Hz. split; [|intros _; apply Hxl, Hz].
      eapply Qle_trans; [apply (Hy z Hz)|exact T].
    + assert (key x < key y) as Hlt.
      { apply Qnot_le_lt. rewrite <- Qle_bool_iff, T. discriminate. }
      constructor; [apply IH, Hxl|].
      eapply Permutation_Forall; [apply insert_desc_perm|].
      constructor; [|exact Hy].
      split; [apply Qlt_le_weak, Hlt|].
      intros E. rewrite E in Hlt. destruct (Qlt_irrefl _ Hlt).
Qed.

Lemma insertion_sort_desc_stable (l : list A) :
  StronglySorted name_lt l ->
  StronglySorted key_then_name (insertion_sort_desc key true l).
Proof.
  induction 1 as [|x l Hs IH Hx]; simpl; [constructor|].
  apply insert_desc_stable; [exact IH|].
  eapply Permutation_Forall; [apply insertion_sort_desc_perm|exact Hx].
Qed.

End StableInsertion.

(** Insertion sort meets the contract of [sort_values]; with
    [before_ties] it keeps equal keys in their input order. *)
Definition insertion_sorter (before_ties : bool) : Sorter :=
  {| sort_desc := fun A key => insertion_sort_desc key before_ties;
     sort_desc_perm := fun A key => insertion_sort_desc_perm key before_ties;
     sort_desc_sorted := fun A key => insertion_sort_desc_sorted key before_ties |}.

(** *** The quicksort of numpy *)

Lemma nodupb_NoDup (l : list nat) : nodupb l = true -> List.NoDup l.
Proof.
  induction l as [|x l IH]; simpl; [constructor|].
  rewrite andb_true_iff, negb_true_iff. intros [Hx Hl].
  constructor; [|apply IH, Hl].
  intros Hin. assert (existsb (Nat.eqb x) l = true) as E; [|congruence].
  apply existsb_exists. exists x. split; [exact Hin|apply Nat.eqb_refl].
Qed.

Lemma reorders_perm (indexer : list nat) (n : nat) :
  reorders indexer n = true -> Permutation (seq 0 n) indexer.
Proof.
  unfold reorders. rewrite !andb_true_iff, Nat.eqb_eq, forallb_forall.
  intros [[Hlen Hlt] Hnd]. symmetry.
  apply NoDup_Permutation_bis; [apply nodupb_NoDup, Hnd|rewrite length_seq; lia|].
  intros i Hi. apply in_seq. specialize (Hlt i Hi). apply Nat.ltb_lt in Hlt. lia.
Qed.

Lemma take_rows_seq {A} (pre l : list A) :
  take_rows (pre ++ l) (seq (List.length pre) (List.length l)) = l.
Proof.
  revert pre. induction l as [|x l IH]; intros pre; [reflexivity|].
  cbn [List.length seq]. unfold take_rows. cbn [flat_map].
  rewrite nth_error_app2, Nat.sub_diag by lia. cbn [nth_error app]. f_equal.
  specialize (IH (pre ++ [x])). rewrite <- app_assoc, length_app in IH.
  cbn [List.length app] in IH. rewrite Nat.add_1_r in IH. exact IH.
Qed.

Lemma take_rows_perm {A} (l : list A) (indexer : list nat) :
  Permutation (seq 0 (List.length l)) indexer -> Permutation l (take_rows l indexer).
Proof.
  intros H. rewrite <- (take_rows_seq [] l) at 1. cbn [app List.length].
  unfold take_rows. apply Permutation_flat_map, H.
Qed.

Lemma non_increasing_sorted {A} (key : A -> Q) (l : list A) :
  non_increasing (map key l) = true ->
  StronglySorted (fun a b => key b <= key a) l.
Proof.
  intros H. apply Sorted_StronglySorted.
  - intros a b c Hab Hbc. eapply Qle_trans; eassumption.
  - induction l as [|x [|y l] IH]; [constructor|repeat constructor|].
    cbn [map non_increasing] in H. apply andb_true_iff in H as [Hxy Ht].
    constructor; [apply IH, Ht|]. constructor. apply Qle_bool_iff, Hxy.
Qed.

Lemma numpy_sort_desc_perm {A} (key : A -> Q) (l : list A) :
  Permutation l (numpy_sort_desc key l).
Proof.
  unfold numpy_sort_desc.
  destruct (reorders _ _ && non_increasing _) eqn:E;
    [|apply insertion_sort_desc_perm].
  apply andb_true_iff in E as [E _]. apply take_rows_perm, reorders_perm, E.
Qed.

Lemma numpy_sort_desc_sorted {A} (key : A -> Q) (l : list A) :
  StronglySorted (fun a b => key b <= key a) (numpy_sort_desc key l).
Proof.
  unfold numpy_sort_desc.
  destruct (reorders _ _ && non_increasing _) eqn:E;
    [|apply insertion_sort_desc_sorted].
  apply andb_true_iff in E as [_ E]. apply non_increasing_sorted, E.
Qed.

(** The quicksort of numpy meets the contract of [sort_values]. *)
Definition numpy_sorter : Sorter :=
  {| sort_desc := fun A key => numpy_sort_desc key;
     sort_desc_perm := fun A key => numpy_sort_desc_perm key;
     sort_desc_sorted := fun A key => numpy_sort_desc_sorted key |}.

(** Of twenty equal keys the partition moves some: the answer lists
    every position once and is not the identity. *)
Example nargsort_desc_equal_keys :
  reorders (nargsort_desc (repeat 10 20)) 20 = true /\
  nargsort_desc (repeat 10 20) <> seq 0 20.
Proof.
  split; [reflexivity|]. vm_compute. discriminate.
Qed.

(** Distinct keys come out in descending order. *)
Example nargsort_desc_distinct_keys :
  nargsort_desc [450; 5000; 125; 200; 800] = [1; 4; 0; 3; 2]%nat.
Proof. reflexivity. Qed.

(** ** Sums *)

Lemma Series_sum_app (l1 l2 : list Q) :
  Series_sum (l1 ++ l2) == Series_sum l1 + Series_sum l2.
Proof.
  induction l1 as [|x l1 IH]; simpl; [lra|]. rewrite IH. lra.
Qed.

Lemma Series_sum_perm (l1 l2 : list Q) :
  Permutation l1 l2 -> Series_sum l1 == Series_sum l2.
Proof.
  induction 1 as [|x l1 l2 _ IH|x y l|l1 l2 l3 _ IH1 _ IH2]; simpl.
  - reflexivity.
  - rewrite IH. reflexivity.
  - lra.
  - rewrite IH1. exact IH2.
Qed.

Lemma Series_sum_pos (l : list Q) :
  Forall (fun x => 0 < x) l -> l <> [] -> 0 < Series_sum l.
Proof.
  induction 1 as [|x l Hx Hl IH]; [congruence|]. intros _. simpl.
  destruct l as [|y l]; simpl in *; [lra|].
  assert (0 < y + Series_sum l) by (apply IH; discriminate). lra.
Qed.

Lemma Series_sum_nonneg (l : list Q) :
  Forall (fun x => 0 <= x) l -> 0 <= Series_sum l.
Proof.
  induction 1 as [|x l Hx Hl IH]; simpl; lra.
Qed.

(** Two lists that agree within [eps] entry by entry have sums that
    agree within [eps] times the length. *)
Lemma Series_sum_close (eps : Q) (l1 l2 : list Q) :
  Forall2 (fun x y => Qabs (x - y) <= eps) l1 l2 ->
  Qabs (Series_sum l1 - Series_sum l2) <= eps * inject_Z (Z.of_nat (List.length l1)).
Proof.
  induction 1 as [|x y l1 l2 Hxy Hl IH].
  - change (Qabs (0 - 0) <= eps * 0). apply Qabs_Qle_condition. split; lra.
  - cbn [Series_sum fold_right List.length].
    rewrite Nat2Z.inj_succ, <- Z.add_1_r, inject_Z_plus.
    change (inject_Z 1) with 1.
    apply Qabs_Qle_condition in Hxy, IH. apply Qabs_Qle_condition.
    fold (Series_sum l1) (Series_sum l2).
    split; lra.
Qed.

(** ** Grouping *)

Lemma groupby_snoc (d : DataFrame) (r : Expense) :
  groupby_Category (d ++ [r]) =
  match Category r with
  | Some k => group_insert k r (groupby_Category d)
  | None => groupby_Category d
  end.
Proof. unfold groupby_Category. rewrite fold_left_app. reflexivity. Qed.

Lemma labelled_snoc (d : DataFrame) (r : Expense) :
  labelled (d ++ [r]) =
  match Category r with
  | Some _ => labelled d ++ [r]
  | None => labelled d
  end.
Proof.
  unfold labelled. rewrite List.filter_app. simpl.
  destruct (Category r); [reflexivity|apply app_nil_r].
Qed.

Lemma labelled_all (d : DataFrame) : Forall has_category d -> labelled d = d.
Proof.
  induction 1 as [|r d Hr _ IH]; [reflexivity|]. unfold labelled. simpl.
  unfold has_category in Hr. destruct (Category r); [|congruence].
  f_equal. exact IH.
Qed.

Lemma group_insert_sum (k : string) (r : Expense) (gs : list (string * DataFrame)) :
  Series_sum (map group_sum (group_insert k r gs)) ==
  Series_sum (map group_sum gs) + Amount r.
Proof.
  induction gs as [|[k' rows] gs IH]; simpl.
  - unfold group_sum. simpl. lra.
  - destruct (String.compare k k'); simpl.
    + unfold group_sum at 1. simpl. rewrite map_app, Series_sum_app.
      unfold group_sum at 2. simpl. lra.
    + unfold group_sum at 1. simpl. lra.
    + rewrite IH. lra.
Qed.

(** The group sums add up to the sum of the amounts of the rows that
    have a category. *)
Lemma groupby_sum (d : DataFrame) :
  Series_sum (map group_sum (groupby_Category d)) == Series_sum (map Amount (labelled d)).
Proof.
  induction d as [|r d IH] using rev_ind; [reflexivity|].
  rewrite groupby_snoc, labelled_snoc. destruct (Category r) as [k|]; [|exact IH].
  rewrite group_insert_sum, IH, map_app, Series_sum_app. simpl. lra.
Qed.

Lemma group_insert_Forall (P : Expense -> Prop) (k : string) (r : Expense)
    (gs : list (string * DataFrame)) :
  P r -> Forall (fun g => Forall P (snd g)) gs ->
  Forall (fun g => Forall P (snd g)) (group_insert k r gs).
Proof.
  intros Hr. induction 1 as [|[k' rows] gs Hg Hgs IH]; simpl.
  - repeat constructor. exact Hr.
  - destruct (String.compare k k').
    + constructor; [|exact Hgs]. simpl in *. apply Forall_app. split; auto.
    + repeat constructor; auto.
    + constructor; auto.
Qed.

Lemma groupby_Forall (P : Expense -> Prop) (d : DataFrame) :
  Forall P d -> Forall (fun g => Forall P (snd g)) (groupby_Category d).
Proof.
  induction d as [|r d IH] using rev_ind; intros H; [constructor|].
  apply Forall_app in H as [Hd Hr]. rewrite groupby_snoc.
  destruct (Category r); [|apply IH, Hd].
  apply group_insert_Forall; [inversion Hr; assumption|apply IH, Hd].
Qed.

Lemma group_insert_nonempty (k : string) (r : Expense) (gs : list (string * DataFrame)) :
  Forall (fun g => snd g <> []) gs ->
  Forall (fun g => snd g <> []) (group_insert k r gs).
Proof.
  induction 1 as [|[k' rows] gs Hg Hgs IH]; simpl.
  - constructor; [simpl; discriminate|constructor].
  - destruct (String.compare k k').
    + constructor; [|exact Hgs]. simpl. destruct rows; discriminate.
    + constructor; [simpl; discriminate|]. constructor; assumption.
    + constructor; assumption.
Qed.

(** No group is empty. *)
Lemma groupby_nonempty (d : DataFrame) :
  Forall (fun g => snd g <> []) (groupby_Category d).
Proof.
  induction d as [|r d IH] using rev_ind; [constructor|].
  rewrite groupby_snoc. destruct (Category r); [|exact IH].
  apply group_insert_nonempty, IH.
Qed.

(** ** Group keys *)

Lemma compare_lt_trans (a b c : string) :
  String.compare a b = Lt -> String.compare b c = Lt -> String.compare a c = Lt.
Proof.
  intros H1 H2. apply OrderedTypeEx.String_as_OT.cmp_lt.
  apply OrderedTypeEx.String_as_OT.cmp_lt in H1, H2.
  eapply OrderedTypeEx.String_as_OT.lt_trans; eassumption.
Qed.

Lemma compare_refl (a : string) : String.compare a a = Eq.
Proof. apply OrderedTypeEx.String_as_OT.cmp_eq. reflexivity. Qed.

Lemma compare_lt_neq (a b : string) : String.compare a b = Lt -> a <> b.
Proof. intros H ->. rewrite compare_refl in H. discriminate. Qed.

Lemma compare_gt_lt (a b : string) :
  String.compare a b = Gt -> String.compare b a = Lt.
Proof. intros H. rewrite String.compare_antisym, H. reflexivity. Qed.

Lemma group_insert_keys (k0 : string) (r : Expense) (gs : list (string * DataFrame))
    (k : string) :
  In k (map fst (group_insert k0 r gs)) <-> k = k0 \/ In k (map fst gs).
Proof.
  induction gs as [|[k' rows] gs IH]; simpl.
  - intuition.
  - destruct (String.compare k0 k') eqn:C; simpl.
    + apply String.compare_eq_iff in C. subst k'. intuition.
    + intuition.
    + rewrite IH. intuition.
Qed.

(** The keys are exactly the categories that occur in the table. *)
Lemma groupby_keys (d : DataFrame) (k : string) :
  In k (map fst (groupby_Category d)) <-> exists r, In r d /\ Category r = Some k.
Proof.
  induction d as [|r d IH] using rev_ind.
  - simpl. split; [contradiction|]. intros (r & [] & _).
  - rewrite groupby_snoc.
    assert ((exists r', In r' (d ++ [r]) /\ Category r' = Some k) <->
            Category r = Some k \/ exists r', In r' d /\ Category r' = Some k) as Hsplit.
    { split.
      - intros (r' & Hr' & E). apply in_app_or in Hr' as [Hr'|[<-|[]]]; eauto.
      - intros [E|(r' & Hr' & E)].
        + exists r. split; [apply in_or_app; right; left; reflexivity|exact E].
        + exists r'. split; [apply in_or_app; left; exact Hr'|exact E]. }
    rewrite Hsplit. destruct (Category r) as [k0|].
    + rewrite group_insert_keys, IH. split; (intros [E|H]; [left|right; exact H]);
        congruence.
    + rewrite IH. split; [auto|]. intros [E|H]; [discriminate|exact H].
Qed.

Lemma group_insert_sorted (k : string) (r : Expense) (gs : list (string * DataFrame)) :
  StronglySorted key_lt gs -> StronglySorted key_lt (group_insert k r gs).
Proof.
  induction 1 as [|[k' rows] gs Hs IH Hk]; simpl.
  - repeat constructor.
  - destruct (String.compare k k') eqn:C.
    + constructor; assumption.
    + constructor; [constructor; assumption|].
      constructor; [exact C|].
      eapply List.Forall_impl; [|exact Hk].
      intros g Hg. unfold key_lt in *. simpl in *. eapply compare_lt_trans; eassumption.
    + constructor; [exact IH|].
      apply List.Forall_forall. intros g Hg.
      assert (In (fst g) (map fst (group_insert k r gs))) as Hin by (apply in_map, Hg).
      apply group_insert_keys in Hin as [E|Hin].
      * unfold key_lt. simpl. rewrite E. apply compare_gt_lt, C.
      * apply in_map_iff in Hin as (g' & E & Hg').
        rewrite List.Forall_forall in Hk. specialize (Hk g' Hg').
        unfold key_lt in *. rewrite <- E. exact Hk.
Qed.

(** The keys come in strictly ascending order. *)
Lemma groupby_sorted (d : DataFrame) : StronglySorted key_lt (groupby_Category d).
Proof.
  induction d as [|r d IH] using rev_ind; [constructor|].
  rewrite groupby_snoc. destruct (Category r); [|exact IH].
  apply group_insert_sorted, IH.
Qed.


Lemma category_is_spec (k : string) (r : Expense) :
  category_is k r = true <-> Category r = Some k.
Proof.
  unfold category_is. destruct (Category r) as [c|]; [|split; discriminate].
  rewrite String.eqb_eq. split; congruence.
Qed.

Lemma rows_of_snoc (k : string) (d : DataFrame) (r : Expense) :
  rows_of k (d ++ [r]) =
  if category_is k r then rows_of k d ++ [r] else rows_of k d.
Proof.
  unfold rows_of. rewrite List.filter_app. simpl.
  destruct (category_is k r); [reflexivity|apply app_nil_r].
Qed.

Lemma rows_of_absent (k : string) (d : DataFrame) :
  (forall r, In r d -> Category r <> Some k) -> rows_of k d = [].
Proof.
  intros H. induction d as [|r d IH]; [reflexivity|]. unfold rows_of. simpl.
  destruct (category_is k r) eqn:E.
  - exfalso. apply (H r); [left; reflexivity|apply category_is_spec, E].
  - apply IH. intros r' Hr'. apply H. right. exact Hr'.
Qed.

Lemma rows_of_other (k : string) (d : DataFrame) (r : Expense) :
  Category r <> Some k -> rows_of k (d ++ [r]) = rows_of k d.
Proof.
  intros H. rewrite rows_of_snoc. destruct (category_is k r) eqn:E; [|reflexivity].
  apply category_is_spec in E. contradiction.
Qed.

Lemma rows_of_same (k : string) (d : DataFrame) (r : Expense) :
  Category r = Some k -> rows_of k (d ++ [r]) = rows_of k d ++ [r].
Proof.
  intros H. rewrite rows_of_snoc. apply category_is_spec in H. rewrite H. reflexivity.
Qed.

Lemma group_insert_rows (k0 : string) (r : Expense) (d : DataFrame)
    (gs : list (string * DataFrame)) :
  Category r = Some k0 ->
  (forall r', In r' d -> Category r' = Some k0 -> In k0 (map fst gs)) ->
  StronglySorted key_lt gs ->
  Forall (fun g => snd g = rows_of (fst g) d) gs ->
  Forall (fun g => snd g = rows_of (fst g) (d ++ [r])) (group_insert k0 r gs).
Proof.
  intros Hr Hseen Hs. revert Hseen.
  assert (forall gs' : list (string * DataFrame),
            Forall (fun g => fst g <> k0) gs' ->
            Forall (fun g => snd g = rows_of (fst g) d) gs' ->
            Forall (fun g => snd g = rows_of (fst g) (d ++ [r])) gs') as Hkeep.
  { intros gs' Hne Hrows. rewrite List.Forall_forall in *. intros g Hg.
    rewrite rows_of_other; [apply Hrows, Hg|].
    rewrite Hr. intros [= E]. apply (Hne g Hg). symmetry. exact E. }
  induction Hs as [|[k rows] gs Hs IH Hk]; intros Hseen Hrows; simpl.
  - constructor; [|constructor]. simpl.
    rewrite (rows_of_same _ _ _ Hr), rows_of_absent; [reflexivity|].
    intros r' Hr' E. destruct (Hseen r' Hr' E).
  - inversion Hrows as [|g gs0 Hg Hgs]; subst. simpl in Hg.
    destruct (String.compare k0 k) eqn:C.
    + apply String.compare_eq_iff in C. subst k.
      constructor.
      * simpl. rewrite (rows_of_same _ _ _ Hr), Hg. reflexivity.
      * apply Hkeep; [|exact Hgs].
        eapply List.Forall_impl; [|exact Hk].
        intros g Hlt E. apply (compare_lt_neq _ _ Hlt). simpl. symmetry. exact E.
    + assert (Forall (fun g => fst g <> k0) ((k, rows) :: gs)) as Hne.
      { constructor.
        - simpl. intros E. apply (compare_lt_neq _ _ C). symmetry. exact E.
        - eapply List.Forall_impl; [|exact Hk].
          intros g Hlt E. unfold key_lt in Hlt. simpl in Hlt.
          apply (compare_lt_neq _ _ (compare_lt_trans _ _ _ C Hlt)).
          symmetry. exact E. }
      constructor; [|apply Hkeep; assumption].
      simpl. rewrite (rows_of_same _ _ _ Hr), rows_of_absent; [reflexivity|].
      intros r' Hr' E. specialize (Hseen r' Hr' E).
      apply in_map_iff in Hseen as (g & Eg & Hin).
      rewrite List.Forall_forall in Hne. apply (Hne g Hin Eg).
    + assert (k <> k0) as Hne
          by (apply compare_lt_neq, compare_gt_lt, C).
      constructor.
      * simpl. rewrite rows_of_other; [exact Hg|].
        rewrite Hr. intros [= E]. apply Hne. symmetry. exact E.
      * apply IH; [|exact Hgs].
        intros r' Hr' E. destruct (Hseen r' Hr' E) as [E'|Hin]; [|exact Hin].
        simpl in E'. contradiction.
Qed.

(** Each group holds the rows of its category, in table order. *)
Lemma groupby_rows (d : DataFrame) :
  Forall (fun g => snd g = rows_of (fst g) d) (groupby_Category d).
Proof.
  induction d as [|r d IH] using rev_ind; [constructor|].
  rewrite groupby_snoc. destruct (Category r) as [k0|] eqn:Er.
  - apply group_insert_rows; [exact Er| |apply groupby_sorted|exact IH].
    intros r' Hr' E. apply groupby_keys. eauto.
  - eapply List.Forall_impl; [|exact IH]. intros g Hg. cbn beta in Hg.
    rewrite rows_of_other; [exact Hg|]. rewrite Er. discriminate.
Qed.

(** ** Extremes *)

Section Extreme.

(** [better x y]: [x] replaces the current best [y].  [worse x y] says
    that [x] is strictly worse than [y], [not_better x y] that it is at
    most as good. *)
Variable better : Q -> Q -> bool.
Variables worse not_better : Q -> Q -> Prop.
Hypothesis better_true : forall x y, better x y = true -> worse y x.
Hypothesis better_false : forall x y, better x y = false -> not_better x y.
Hypothesis not_better_refl : forall x, not_better x x.
Hypothesis not_better_worse : forall x y z, not_better x y -> worse y z -> worse x z.
Hypothesis worse_not_better : forall x y, worse x y -> not_better x y.

Lemma first_extreme_spec (l seen : list Q) (best_i : nat) (best : Q) :
  nth_error seen best_i = Some best ->
  (forall x, In x seen -> not_better x best) ->
  (forall j x, (j < best_i)%nat -> nth_error seen j = Some x -> worse x best) ->
  first_best worse not_better (seen ++ l) (first_extreme better best_i best (List.length seen) l).
Proof.
  revert seen best_i best.
  induction l as [|x l IH]; intros seen best_i best Hbest Hall Hfirst; simpl.
  - rewrite app_nil_r. exists best. auto.
  - assert (List.length (seen ++ [x]) = S (List.length seen)) as Hlen
        by (rewrite length_app; simpl; lia).
    replace (seen ++ x :: l) with ((seen ++ [x]) ++ l)
      by (rewrite <- app_assoc; reflexivity).
    rewrite <- Hlen.
    destruct (better x best) eqn:B; apply IH.
    + rewrite nth_error_app2, Nat.sub_diag by lia. reflexivity.
    + intros y Hy. apply in_app_or in Hy as [Hy|[<-|[]]]; [|apply not_better_refl].
      apply worse_not_better. eapply not_better_worse; eauto.
    + intros j y Hj Hy. rewrite nth_error_app1 in Hy by exact Hj.
      apply nth_error_In in Hy. eapply not_better_worse; eauto.
    + rewrite nth_error_app1; [exact Hbest|].
      apply nth_error_Some. rewrite Hbest. discriminate.
    + intros y Hy. apply in_app_or in Hy as [Hy|[<-|[]]]; auto.
    + intros j y Hj Hy. apply (Hfirst j y Hj).
      rewrite nth_error_app1 in Hy; [exact Hy|].
      assert (best_i < List.length seen)%nat; [|lia].
      apply nth_error_Some. rewrite Hbest. discriminate.
Qed.

Lemma first_extreme_head (x : Q) (l : list Q) :
  first_best worse not_better (x :: l) (first_extreme better 0 x 1 l).
Proof.
  apply (first_extreme_spec l [x] 0%nat x); simpl.
  - reflexivity.
  - intros y [<-|[]]. apply not_better_refl.
  - intros j y Hj. lia.
Qed.

End Extreme.

(** [idxmax] returns the first position holding the largest value. *)
Lemma idxmax_first (l : list Q) :
  l <> [] ->
  exists k, idxmax l = Ok k /\
    first_best (fun x y => x < y) (fun x y => x <= y) l k.
Proof.
  destruct l as [|x l]; [congruence|]. intros _. eexists. split; [reflexivity|].
  apply first_extreme_head.
  - intros a b H. apply Qlt_bool_iff, H.
  - intros a b H. apply Qlt_bool_false_iff, H.
  - intros a. apply Qle_refl.
  - intros a b c. apply Qle_lt_trans.
  - intros a b. apply Qlt_le_weak.
Qed.

(** [idxmin] returns the first position holding the smallest value. *)
Lemma idxmin_first (l : list Q) :
  l <> [] ->
  exists k, idxmin l = Ok k /\
    first_best (fun x y => y < x) (fun x y => y <= x) l k.
Proof.
  destruct l as [|x l]; [congruence|]. intros _. eexists. split; [reflexivity|].
  apply first_extreme_head.
  - intros a b H. apply Qlt_bool_iff, H.
  - intros a b H. apply Qlt_bool_false_iff, H.
  - intros a. apply Qle_refl.
  - intros a b c H1 H2. eapply Qlt_le_trans; eassumption.
  - intros a b. apply Qlt_le_weak.
Qed.

(** ** The seed table *)

Lemma whole_cents_inject_Z (n : Z) : whole_cents (inject_Z n).
Proof. exists (n * 100)%Z. rewrite inject_Z_mult. reflexivity. Defined.

Lemma sample_whole_cents : Forall (fun r => whole_cents (Amount r)) (df sample_tracker).
Proof.
  repeat (apply List.Forall_cons; [apply whole_cents_inject_Z|]). apply List.Forall_nil.
Defined.

Lemma sample_positive : Forall (fun r => 0 < Amount r) (df sample_tracker).
Proof. repeat constructor. Defined.

(** ** Appending a record *)

Section Append.

Variable float : string -> option Q.
Variable to_datetime : string -> option Timestamp.
Variable strftime : Timestamp -> string.
Variables (self : ExpenseTracker) (fs : FS).
Variables today date_in category_in amount_in description_in : string.

Let add := add_new_expense float to_datetime strftime self fs today date_in category_in.

(** C1. A candidate record that is invalid (amount not positive, or
    category or description empty once stripped) is rejected with one of
    the two validation messages, and the tracker, hence its table, and
    the files are exactly what they were. *)
Theorem add_new_expense_invalid_unchanged (amount : Q) :
  float (strip amount_in) = Some amount ->
  amount <= 0 \/ strip category_in = ""%string \/ strip description_in = ""%string ->
  exists out,
    add amount_in description_in = (self, fs, out) /\
    is_validation_error out = true /\
    List.length (df (fst (fst (add amount_in description_in)))) = List.length (df self).
Proof.
  intros Hf Hbad. unfold add, add_new_expense. rewrite Hf.
  destruct (String.eqb (strip category_in) "" || String.eqb (strip description_in) "") eqn:E.
  - exists EmptyField. auto.
  - apply orb_false_elim in E as [Ec Ed].
    apply String.eqb_neq in Ec, Ed.
    destruct Hbad as [Ha|[Hc|Hd]]; [|contradiction..].
    apply Qle_bool_iff in Ha. rewrite Ha.
    exists NonPositiveAmount. auto.
Qed.

(** C10. The empty-field test comes first: when the category or the
    description is empty once stripped and the amount is not positive,
    the message is the empty-field one; and with such a category or
    description the outcome is the same whatever amount was typed, so
    the amount is not looked at. *)
Theorem add_new_expense_fields_before_amount (amount : Q) :
  float (strip amount_in) = Some amount ->
  strip category_in = ""%string \/ strip description_in = ""%string ->
  amount <= 0 ->
  add amount_in description_in = (self, fs, EmptyField) /\
  forall amount_in' amount',
    float (strip amount_in') = Some amount' ->
    add amount_in' description_in = (self, fs, EmptyField).
Proof.
  intros Hf Hempty _.
  assert (String.eqb (strip category_in) "" || String.eqb (strip description_in) "" = true)
    as E.
  { apply orb_true_iff. destruct Hempty as [H|H]; rewrite H; auto. }
  split; [|intros amount_in' amount' Hf'];
    unfold add, add_new_expense; rewrite ?Hf, ?Hf', E; reflexivity.
Qed.

End Append.

Lemma add_new_expense_invalid_unchanged_witness :
  decimal (strip "-5") = Some (-5 # 1) /\
  ((-5 # 1) <= 0 \/ strip "Food" = ""%string \/ strip "Lunch" = ""%string) /\
  exists out,
    add_new_expense decimal iso_date iso_format sample_tracker no_files
      "2025-06-20" "2025-06-16" "Food" "-5" "Lunch" = (sample_tracker, no_files, out) /\
    is_validation_error out = true /\
    List.length
      (df (fst (fst (add_new_expense decimal iso_date iso_format sample_tracker no_files
                       "2025-06-20" "2025-06-16" "Food" "-5" "Lunch")))) =
    List.length (df sample_tracker).
Proof.
  assert ((-5 # 1) <= 0) as Hneg by (unfold Qle; simpl; lia).
  split; [reflexivity|]. split; [left; exact Hneg|].
  apply (add_new_expense_invalid_unchanged decimal iso_date iso_format sample_tracker
           no_files "2025-06-20" "2025-06-16" "Food" "-5" "Lunch" (-5 # 1));
    [reflexivity|left; exact Hneg].
Defined.

Lemma add_new_expense_fields_before_amount_witness :
  decimal (strip "-5") = Some (-5 # 1) /\
  (strip "   " = ""%string \/ strip "Lunch" = ""%string) /\
  (-5 # 1) <= 0 /\
  add_new_expense decimal iso_date iso_format sample_tracker no_files
    "2025-06-20" "2025-06-16" "   " "-5" "Lunch" = (sample_tracker, no_files, EmptyField) /\
  forall amount_in' amount',
    decimal (strip amount_in') = Some amount' ->
    add_new_expense decimal iso_date iso_format sample_tracker no_files
      "2025-06-20" "2025-06-16" "   " amount_in' "Lunch" = (sample_tracker, no_files, EmptyField).
Proof.
  assert ((-5 # 1) <= 0) as Hneg by (unfold Qle; simpl; lia).
  split; [reflexivity|]. split; [left; reflexivity|]. split; [exact Hneg|].
  apply (add_new_expense_fields_before_amount decimal iso_date iso_format sample_tracker
           no_files "2025-06-20" "2025-06-16" "   " "-5" "Lunch" (-5 # 1));
    [reflexivity|left; reflexivity|exact Hneg].
Defined.

(** ** Filtering by date *)

Lemma loc_mask_filter (f : Expense -> bool) (d : DataFrame) :
  loc_mask d (map f d) = List.filter f d.
Proof.
  induction d as [|r d IH]; simpl; [reflexivity|].
  destruct (f r); rewrite IH; reflexivity.
Qed.

Lemma filter_none {A} (f : A -> bool) (l : list A) :
  (forall x, f x = false) -> List.filter f l = [].
Proof.
  intros H. induction l as [|x l IH]; simpl; [reflexivity|].
  rewrite H. exact IH.
Qed.

Section Filter.

Variable to_datetime : string -> option Timestamp.
Variable quicksort : Sorter.
Variable self : ExpenseTracker.
Variables start_in end_in : string.
Variables start_dt end_dt : Timestamp.
Hypothesis start_parsed : to_datetime (strip start_in) = Some start_dt.
Hypothesis end_parsed : to_datetime (strip end_in) = Some end_dt.

Let report := filter_by_date to_datetime quicksort self start_in end_in.

Lemma filter_by_date_parsed :
  report =
    let filtered_df := List.filter (in_range start_dt end_dt) (df self) in
    if empty filtered_df then NoExpensesBetween
    else
      let total := Series_sum (map Amount filtered_df) in
      Found filtered_df total
        (map (fun ca => (fst ca, snd ca, num_scale 100 (np_div (snd ca) total)))
           (category_totals_of quicksort filtered_df)).
Proof.
  unfold report, filter_by_date, parse_date. rewrite start_parsed, end_parsed.
  rewrite (map_ext _ (in_range start_dt end_dt))
    by (intros r; unfold in_range; rewrite Z.geb_leb; reflexivity).
  rewrite loc_mask_filter. simpl.
  destruct (List.filter _ _) as [|r d] eqn:E; reflexivity.
Qed.

Lemma matches_filter :
  matches report = List.filter (in_range start_dt end_dt) (df self).
Proof.
  rewrite filter_by_date_parsed. simpl.
  destruct (List.filter _ _) as [|r d]; reflexivity.
Qed.

(** C4. With both dates parsed, the rows reported are exactly the rows
    of the table whose date lies between the two (bounds included), in
    table order; no match is reported as "No expenses found between"
    and not as a date error; a table of one row dated [d] filtered from
    [d] to [d] gives that row; and a start after the end matches nothing. *)
Theorem filter_by_date_inclusive :
  report <> InvalidDateFormat /\
  matches report = List.filter (in_range start_dt end_dt) (df self) /\
  (forall r, In r (matches report) <->
             In r (df self) /\ (start_dt <= Date r <= end_dt)%Z) /\
  (matches report = [] <-> report = NoExpensesBetween) /\
  (forall r, df self = [r] -> start_dt = Date r -> end_dt = Date r ->
             matches report = [r]) /\
  ((end_dt < start_dt)%Z -> report = NoExpensesBetween).
Proof.
  assert (matches report = [] -> report = NoExpensesBetween) as Hnone.
  { rewrite matches_filter, filter_by_date_parsed. simpl. intros ->. reflexivity. }
  split; [|split; [|split; [|split; [|split]]]].
  - rewrite filter_by_date_parsed. simpl.
    destruct (empty _); discriminate.
  - apply matches_filter.
  - intros r. rewrite matches_filter, filter_In. unfold in_range.
    rewrite andb_true_iff, !Z.leb_le. reflexivity.
  - split; [exact Hnone|]. intros ->. reflexivity.
  - intros r Hdf Hs He. rewrite matches_filter, Hdf, Hs, He. simpl.
    unfold in_range. rewrite Z.leb_refl. reflexivity.
  - intros Hlt. apply Hnone. rewrite matches_filter.
    apply filter_none. intros r. unfold in_range.
    apply andb_false_iff. rewrite !Z.leb_gt. lia.
Qed.

End Filter.

Lemma filter_by_date_inclusive_witness :
  iso_date (strip "2025-06-11 ") = Some (midnight 2025 6 11) /\
  iso_date (strip " 2025-06-12") = Some (midnight 2025 6 12) /\
  matches (filter_by_date iso_date (insertion_sorter true) sample_tracker
             "2025-06-11 " " 2025-06-12") =
  List.filter (in_range (midnight 2025 6 11) (midnight 2025 6 12)) (df sample_tracker).
Proof.
  split; [reflexivity|]. split; [reflexivity|].
  exact (proj1 (proj2 (filter_by_date_inclusive iso_date (insertion_sorter true)
                         sample_tracker "2025-06-11 " " 2025-06-12"
                         (midnight 2025 6 11) (midnight 2025 6 12) eq_refl eq_refl))).
Defined.

(** The three rows of 11 and 12 June. *)
Example sample_filter :
  map Description
    (matches (filter_by_date iso_date (insertion_sorter true) sample_tracker
                "2025-06-11" "2025-06-12")) =
  [Some "Rickshaw fare"%string; Some "June Rent"%string;
   Some "Electricity Bill"%string].
Proof. reflexivity. Qed.

(** A start after the end, and a date that does not parse. *)
Example sample_filter_reversed :
  filter_by_date iso_date (insertion_sorter true) sample_tracker
    "2025-06-12" "2025-06-11" = NoExpensesBetween /\
  filter_by_date iso_date (insertion_sorter true) sample_tracker
    "12 June" "2025-06-11" = InvalidDateFormat.
Proof. split; reflexivity. Qed.

(** ** The overview *)

Lemma nth_error_map_Amount (d : DataFrame) (k : nat) (v : Q) :
  nth_error (map Amount d) k = Some v ->
  exists r, nth_error d k = Some r /\ Amount r = v.
Proof.
  rewrite nth_error_map. destruct (nth_error d k) as [r|]; simpl; [|discriminate].
  intros [= <-]. eauto.
Qed.

(** On a table with at least one row the overview is computed, the mean
    is finite, and the two reported rows are those at the positions that
    [idxmax] and [idxmin] select. *)
Lemma display_total_overview_nonempty (self : ExpenseTracker) :
  df self <> [] ->
  exists hi h lo l,
    display_total_overview self =
      Ok (Overview (Series_sum (map Amount (df self))) (List.length (df self))
            (Some (Series_sum (map Amount (df self)) /
                   inject_Z (Z.of_nat (List.length (df self)))))
            hi h lo l) /\
    idxmax (map Amount (df self)) = Ok hi /\ nth_error (df self) hi = Some h /\
    idxmin (map Amount (df self)) = Ok lo /\ nth_error (df self) lo = Some l.
Proof.
  intros Hne. unfold display_total_overview.
  assert (map Amount (df self) <> []) as Hne'.
  { intros H. apply map_eq_nil in H. contradiction. }
  destruct (idxmax_first _ Hne') as (hi & Ehi & vh & Hh & _).
  destruct (idxmin_first _ Hne') as (lo & Elo & vl & Hl & _).
  apply nth_error_map_Amount in Hh as (h & Hh & _).
  apply nth_error_map_Amount in Hl as (l & Hl & _).
  exists hi, h, lo, l.
  destruct (df self) as [|r d] eqn:E; [congruence|].
  cbn [empty]. rewrite Ehi, Elo. cbn [bind]. unfold loc. rewrite Hh, Hl.
  cbn [bind]. unfold Series_mean.
  rewrite length_map. cbn [map]. auto.
Qed.

(** C8. On a table with at least one row, the highest (lowest) row of
    the overview has the largest (smallest) amount of the table, and
    every row before it has a strictly smaller (larger) amount: among
    equal extremes the first one in the table is reported. *)
Theorem overview_extremes_first_occurrence (self : ExpenseTracker) :
  df self <> [] ->
  exists total n avg hi h lo l,
    display_total_overview self = Ok (Overview total n avg hi h lo l) /\
    nth_error (df self) hi = Some h /\
    (forall r, In r (df self) -> Amount r <= Amount h) /\
    (forall j r, (j < hi)%nat -> nth_error (df self) j = Some r -> Amount r < Amount h) /\
    nth_error (df self) lo = Some l /\
    (forall r, In r (df self) -> Amount l <= Amount r) /\
    (forall j r, (j < lo)%nat -> nth_error (df self) j = Some r -> Amount l < Amount r).
Proof.
  intros Hne.
  destruct (display_total_overview_nonempty self Hne)
    as (hi & h & lo & l & E & Ehi & Hh & Elo & Hl).
  assert (map Amount (df self) <> []) as Hne'.
  { intros H. apply map_eq_nil in H. contradiction. }
  destruct (idxmax_first _ Hne') as (hi' & Ehi' & vh & Hvh & Hmax & Hfirst).
  destruct (idxmin_first _ Hne') as (lo' & Elo' & vl & Hvl & Hmin & Hlast).
  rewrite Ehi in Ehi'. injection Ehi' as <-.
  rewrite Elo in Elo'. injection Elo' as <-.
  rewrite nth_error_map, Hh in Hvh. injection Hvh as <-.
  rewrite nth_error_map, Hl in Hvl. injection Hvl as <-.
  do 7 eexists. split; [exact E|].
  repeat split; try assumption.
  - intros r Hr. apply Hmax, in_map, Hr.
  - intros j r Hj Hr. apply (Hfirst j); [exact Hj|].
    rewrite nth_error_map, Hr. reflexivity.
  - intros r Hr. apply Hmin, in_map, Hr.
  - intros j r Hj Hr. apply (Hlast j); [exact Hj|].
    rewrite nth_error_map, Hr. reflexivity.
Qed.

Lemma overview_extremes_first_occurrence_witness :
  df sample_tracker <> [] /\
  exists total n avg hi h lo l,
    display_total_overview sample_tracker = Ok (Overview total n avg hi h lo l) /\
    nth_error (df sample_tracker) hi = Some h /\
    (forall r, In r (df sample_tracker) -> Amount r <= Amount h) /\
    (forall j r, (j < hi)%nat -> nth_error (df sample_tracker) j = Some r ->
                 Amount r < Amount h) /\
    nth_error (df sample_tracker) lo = Some l /\
    (forall r, In r (df sample_tracker) -> Amount l <= Amount r) /\
    (forall j r, (j < lo)%nat -> nth_error (df sample_tracker) j = Some r ->
                 Amount l < Amount r).
Proof.
  split; [discriminate|].
  apply (overview_extremes_first_occurrence sample_tracker). discriminate.
Defined.

(** Two rows share the largest amount and two the smallest: the earlier
    of each pair is reported. *)
Example overview_ties_first :
  let row c a := {| Date := midnight 2025 6 10; Category := Some c; Amount := a;
                    Description := Some "x" |} in
  exists total n avg h l,
    display_total_overview
      {| csv_file := "expenses.csv";
         df := [row "A" 20; row "B" 70; row "C" 20; row "D" 70] |} =
    Ok (Overview total n avg 1 h 0 l).
Proof. simpl. do 5 eexists. reflexivity. Qed.

(** C6. On the seed table the overview reports a total of 6575 over 7
    rows, a mean that rounds to 939.29, the 5000 Rent row (position 2)
    as highest and the 50 Transport row (position 1) as lowest. *)
Theorem sample_overview :
  map Amount sample_df = [150; 50; 5000; 200; 300; 800; 75] /\
  exists total avg,
    display_total_overview sample_tracker =
      Ok (Overview total 7 (Some avg)
            2 {| Date := midnight 2025 6 12; Category := Some "Rent"; Amount := 5000;
                 Description := Some "June Rent" |}
            1 {| Date := midnight 2025 6 11; Category := Some "Transport"; Amount := 50;
                 Description := Some "Rickshaw fare" |}) /\
    total == 6575 /\
    round2 avg == 939.29.
Proof.
  split; [reflexivity|].
  do 2 eexists. split; [reflexivity|]. split; reflexivity.
Qed.

(** ** Loading *)

Section Load.

Variable to_datetime_series : list string -> option (list Timestamp).
Variable strftime : Timestamp -> string.

(** [pd.to_datetime] reads the seed dates as midnight of those days. *)
Hypothesis seed_dates_parsed :
  to_datetime_series (map raw_Date sample_data) = Some (map Date sample_df).

Lemma sample_data_parsed :
  to_datetime_column to_datetime_series sample_data = Ok sample_df.
Proof. unfold to_datetime_column. rewrite seed_dates_parsed. reflexivity. Qed.

(** What [save_data] leaves on disk for a path that can be written. *)
Lemma save_data_writable (self : ExpenseTracker) (fs : FS) :
  csv_file self ∉ locked fs ->
  save_data strftime self fs =
    ({| files := <[csv_file self := to_csv strftime (df self)]> (files fs);
        locked := locked fs |}, Saved).
Proof.
  intros H. unfold save_data, write_file. rewrite decide_False by exact H. reflexivity.
Qed.

(** [strftime('%Y-%m-%d')] writes the seed dates as the seed columns
    give them. *)
Hypothesis strftime_seed :
  map (fun r => strftime (Date r)) sample_df = map raw_Date sample_data.

Lemma sample_df_to_csv : to_csv strftime sample_df = Table sample_data.
Proof.
  unfold to_csv. f_equal.
  assert (forall (d : DataFrame) (raws : list RawRow),
            map (fun r => strftime (Date r)) d = map raw_Date raws ->
            map (fun r => (reread (Category r), Amount r, reread (Description r))) d =
            map (fun raw => (raw_Category raw, raw_Amount raw, raw_Description raw)) raws ->
            map (fun r => {| raw_Date := strftime (Date r);
                             raw_Category := reread (Category r);
                             raw_Amount := Amount r;
                             raw_Description := reread (Description r) |}) d = raws) as H.
  { induction d as [|r d IH]; intros [|raw raws]; simpl; try discriminate; [reflexivity|].
    intros [= E1 E2] [= E3 E4 E5 E6]. rewrite (IH raws E2 E6), E1, E3, E4, E5.
    destruct raw. reflexivity. }
  apply H; [exact strftime_seed|reflexivity].
Qed.

(** C9. When no file exists at the tracker's path, loading returns
    (the process does not exit) with the table set to the seven seed
    rows and with the result of saving that table at once; if the path
    can be written, the save succeeds and the file then holds the seven
    seed rows, dates, categories, amounts and descriptions as the seed
    columns give them.  The constructor does exactly this, so the file
    is written before any method of the tracker can be called. *)
Theorem load_missing_file_creates_sample (self : ExpenseTracker) (fs : FS) :
  files fs !! csv_file self = None ->
  let seeded := set_df self sample_df in
  load_data to_datetime_series strftime self fs =
    Returns (seeded, fst (save_data strftime seeded fs),
             CreatedSample (snd (save_data strftime seeded fs)) 7) /\
  init to_datetime_series strftime (csv_file self) fs =
    Returns (seeded, fst (save_data strftime seeded fs),
             CreatedSample (snd (save_data strftime seeded fs)) 7) /\
  List.length sample_df = 7%nat /\
  (csv_file self ∉ locked fs ->
   snd (save_data strftime seeded fs) = Saved /\
   files (fst (save_data strftime seeded fs)) !! csv_file self =
     Some (Table sample_data) /\
   List.length sample_data = 7%nat).
Proof.
  intros Hmissing seeded.
  assert (forall self0, csv_file self0 = csv_file self ->
            load_data to_datetime_series strftime self0 fs =
              Returns (seeded, fst (save_data strftime seeded fs),
                       CreatedSample (snd (save_data strftime seeded fs)) 7)) as Hload.
  { intros self0 E. unfold load_data, exists_path. rewrite E, Hmissing.
    unfold create_sample_data. rewrite sample_data_parsed. cbn [bind].
    replace (set_df self0 sample_df) with seeded
      by (unfold seeded, set_df; rewrite E; reflexivity).
    destruct (save_data strftime seeded fs) as [fs' saved]. reflexivity. }
  split; [apply Hload; reflexivity|].
  split; [apply Hload; reflexivity|].
  split; [reflexivity|].
  intros Hw. rewrite (save_data_writable seeded fs Hw). simpl.
  split; [reflexivity|]. split; [|reflexivity].
  rewrite lookup_insert_eq. f_equal. exact sample_df_to_csv.
Qed.

End Load.

Lemma load_missing_file_creates_sample_witness :
  iso_date_column (map raw_Date sample_data) = Some (map Date sample_df) /\
  map (fun r => iso_format (Date r)) sample_df = map raw_Date sample_data /\
  files no_files !! csv_file sample_tracker = None /\
  load_data iso_date_column iso_format sample_tracker no_files =
    Returns (sample_tracker,
             {| files := {[ "expenses.csv"%string := Table sample_data ]};
                locked := ∅ |},
             CreatedSample Saved 7).
Proof.
  split; [reflexivity|]. split; [reflexivity|]. split; [reflexivity|].
  etransitivity;
    [exact (proj1 (load_missing_file_creates_sample iso_date_column iso_format
                     eq_refl eq_refl sample_tracker no_files eq_refl))|].
  reflexivity.
Defined.

(** With ISO dates the seed table is written back as the seed columns. *)
Example sample_to_csv : to_csv iso_format sample_df = Table sample_data.
Proof. reflexivity. Qed.

(** ** Divisors *)

Lemma np_div_finite (x y : Q) : ~ y == 0 -> np_div x y = Some (x / y).
Proof.
  intros H. unfold np_div. destruct (Qeq_bool y 0) eqn:E; [|reflexivity].
  apply Qeq_bool_iff in E. contradiction.
Qed.


Lemma amounts_sum_pos (d : DataFrame) :
  Forall (fun r => 0 < Amount r) d -> d <> [] -> 0 < Series_sum (map Amount d).
Proof.
  intros Hpos Hne. apply Series_sum_pos.
  - apply Forall_map. exact Hpos.
  - intros H. apply map_eq_nil in H. contradiction.
Qed.

Section Divisors.

Variable to_datetime : string -> option Timestamp.
Variable quicksort : Sorter.
Variable self : ExpenseTracker.
Variables start_in end_in : string.

Let report := filter_by_date to_datetime quicksort self start_in end_in.



End Divisors.

Lemma sample_sums_in_range : sums_in_range (df sample_tracker).
Proof. reflexivity. Defined.



(** The file from which that table is loaded. *)
Example zero_total_loads :
  let raw d c a := {| raw_Date := d; raw_Category := Some c; raw_Amount := a;
                      raw_Description := Some "x"%string |} in
  let fs := {| files := {[ "expenses.csv"%string :=
                             Table [raw "2025-06-10" "A" (-20); raw "2025-06-11" "B" 20] ]};
               locked := ∅ |} in
  load_data iso_date_column iso_format {| csv_file := "expenses.csv"; df := [] |} fs =
  Returns (zero_total, fs, Loaded 2).
Proof. reflexivity. Qed.

(** ** Category analysis *)

Lemma category_stats_perm (quicksort : Sorter) (d : DataFrame) :
  Permutation (unsorted_stats d) (category_stats_of quicksort d).
Proof. unfold category_stats_of. apply sort_desc_perm. Qed.



Lemma category_analysis_nonempty (quicksort : Sorter) (self : ExpenseTracker) :
  df self <> [] ->
  category_analysis quicksort self = Some (category_stats_of quicksort (df self)).
Proof.
  intros H. unfold category_analysis. destruct (df self); [congruence|reflexivity].
Qed.


(** The file from which that table is loaded. *)
Example many_tied_loads :
  let fs := {| files := {[ "expenses.csv"%string :=
                             to_csv iso_format (df many_tied) ]};
               locked := ∅ |} in
  load_data iso_date_column iso_format {| csv_file := "expenses.csv"; df := [] |} fs =
  Returns (many_tied, fs, Loaded 20).
Proof. vm_compute. reflexivity. Qed.

(** Two categories of equal total are too few for the quicksort to move:
    they stay in name order. *)
Example category_analysis_two_tied :
  option_map (map Category_key) (category_analysis numpy_sorter two_tied) =
  Some ["Food"%string; "Transport"%string].
Proof. reflexivity. Qed.

Lemma StronglySorted_map {A B} (R : B -> B -> Prop) (f : A -> B) (l : list A) :
  StronglySorted (fun a b => R (f a) (f b)) l -> StronglySorted R (map f l).
Proof.
  induction 1 as [|x l Hs IH Hx]; simpl; constructor; [exact IH|].
  rewrite Forall_map. exact Hx.
Qed.

(** Were the sort stable, the order asked by the specification would
    follow: the groups come out of [groupby] in ascending name order and
    a stable sort keeps that order among equal totals. *)
Lemma category_analysis_stable_sort_ties_by_name (self : ExpenseTracker)
    (rows : list StatRow) :
  category_analysis (insertion_sorter true) self = Some rows ->
  StronglySorted total_desc_then_name rows.
Proof.
  unfold category_analysis. destruct (empty (df self)); [discriminate|].
  intros [= <-]. unfold category_stats_of.
  apply (insertion_sort_desc_stable Total_Amount Category_key).
  unfold with_percentage. rewrite map_map.
  apply StronglySorted_map. simpl. apply groupby_sorted.
Qed.



(** On the seed table Rent comes first and Entertainment second. *)
Example sample_category_ranking :
  option_map (map (fun row => (Category_key row, Qred (Total_Amount row))))
    (category_analysis (insertion_sorter true) sample_tracker) =
  Some [("Rent"%string, 5000); ("Entertainment"%string, 800); ("Food"%string, 450);
        ("Utilities"%string, 200); ("Transport"%string, 125)].
Proof. reflexivity. Qed.

(** ** Totals and percentages *)

Lemma Forall2_map_same {A} (f g : A -> Q) (P : Q -> Q -> Prop) (l : list A) :
  (forall x, In x l -> P (f x) (g x)) -> Forall2 P (map f l) (map g l).
Proof.
  induction l as [|x l IH]; intros H; simpl; constructor.
  - apply H. left. reflexivity.
  - apply IH. intros y Hy. apply H. right. exact Hy.
Qed.

Lemma Series_sum_scale (c : Q) (l : list Q) :
  Series_sum (map (fun x => x * c) l) == Series_sum l * c.
Proof.
  induction l as [|x l IH]; simpl; [ring|]. rewrite IH. ring.
Qed.

Lemma Series_sum_map_ext {A} (f g : A -> Q) (l : list A) :
  (forall x, In x l -> f x == g x) ->
  Series_sum (map f l) == Series_sum (map g l).
Proof.
  induction l as [|x l IH]; intros H; simpl; [reflexivity|].
  rewrite (H x), IH; [reflexivity| |left; reflexivity].
  intros y Hy. apply H. right. exact Hy.
Qed.

Lemma Series_sum_member_le (x : Q) (l : list Q) :
  Forall (fun y => 0 <= y) l -> In x l -> x <= Series_sum l.
Proof.
  induction 1 as [|y l Hy Hl IH]; simpl; [contradiction|].
  pose proof (Series_sum_nonneg l Hl).
  intros [->|Hin]; [lra|]. specialize (IH Hin). lra.
Qed.



(** The file from which that table is loaded. *)
Example unlabelled_loads :
  let fs := {| files := {[ "expenses.csv"%string :=
                             Table [ {| raw_Date := "2025-06-10"; raw_Category := None;
                                        raw_Amount := 5; raw_Description := Some "Tea" |};
                                     {| raw_Date := "2025-06-11";
                                        raw_Category := Some "Food";
                                        raw_Amount := 10;
                                        raw_Description := Some "Lunch" |} ] ]};
               locked := ∅ |} in
  load_data iso_date_column iso_format {| csv_file := "expenses.csv"; df := [] |} fs =
  Returns (unlabelled, fs, Loaded 2).
Proof. reflexivity. Qed.

(** The menu leads there too: a category typed as NA passes the test
    for an empty field, is written as it is, and is read back as a
    missing value. *)
Example category_NA_reloads_missing :
  let '(self1, fs1, outcome) :=
    add_new_expense decimal iso_date iso_format
      {| csv_file := "expenses.csv"; df := [] |} no_files
      "2025-06-20" "2025-06-10" "NA" "5" "Tea" in
  (exists row saved, outcome = Added row saved /\ Category row = Some "NA"%string) /\
  exists self2 fs2,
    load_data iso_date_column iso_format self1 fs1 = Returns (self2, fs2, Loaded 1) /\
    map Category (df self2) = [None].
Proof. split; [do 2 eexists; split; reflexivity|do 2 eexists; split; reflexivity]. Qed.


Lemma sample_has_category : Forall has_category (df sample_tracker).
Proof. repeat (apply List.Forall_cons; [discriminate|]). apply List.Forall_nil. Defined.


(** C7, as stated, does not hold: the percentage is taken from the
    category total after it was rounded to two places.  One row of
    0.006 has the rounded total 0.01, which is 166.67 percent of the
    column total 0.006. *)
Lemma category_percentage_above_100 :
  df one_small <> [] /\
  Forall (fun r => 0 < Amount r) (df one_small) /\
  exists row p,
    category_analysis (insertion_sorter true) one_small = Some [row] /\
    Percentage row = Some p /\
    p == 166.67 /\
    ~ (0 <= p /\ p <= 100) /\
    ~ Qabs (p - 100) <= (1 # 100) * 1.
Proof.
  split; [discriminate|]. split; [repeat constructor|].
  do 2 eexists. split; [reflexivity|]. split; [reflexivity|].
  split; [reflexivity|]. split.
  - intros [_ H]. revert H. apply Qlt_not_le. reflexivity.
  - apply Qlt_not_le. reflexivity.
Qed.

Lemma whole_cents_sum (l : list Q) : Forall whole_cents l -> whole_cents (Series_sum l).
Proof.
  induction 1 as [|x l [n Hn] _ [m Hm]]; simpl.
  - exists 0%Z. reflexivity.
  - exists (n + m)%Z. rewrite inject_Z_plus, <- Hn, <- Hm. ring.
Qed.

Section Percentages.

Variable quicksort : Sorter.
Variable d : DataFrame.
Hypothesis nonempty : d <> [].
Hypothesis positive : Forall (fun r => 0 < Amount r) d.
Hypothesis cents : Forall (fun r => whole_cents (Amount r)) d.
Hypothesis categories : Forall has_category d.

Let total_spending := Series_sum (map Amount d).

Lemma total_spending_pos : 0 < total_spending.
Proof. apply amounts_sum_pos; assumption. Qed.

Lemma groupby_sum_all :
  Series_sum (map group_sum (groupby_Category d)) == total_spending.
Proof. rewrite groupby_sum, (labelled_all d categories). reflexivity. Qed.

Lemma group_sum_cents (g : string * DataFrame) :
  In g (groupby_Category d) -> round2 (group_sum g) == group_sum g.
Proof.
  intros Hg. apply round2_whole_cents, whole_cents_sum.
  pose proof (groupby_Forall _ d cents) as H.
  rewrite List.Forall_forall in H. rewrite Forall_map. apply (H g Hg).
Qed.

Lemma group_sum_range (g : string * DataFrame) :
  In g (groupby_Category d) -> 0 <= group_sum g /\ group_sum g <= total_spending.
Proof.
  intros Hg.
  assert (Forall (fun y => 0 <= y) (map group_sum (groupby_Category d))) as Hnn.
  { rewrite Forall_map.
    eapply List.Forall_impl; [|apply (groupby_Forall _ d positive)].
    intros g' Hg'. apply Series_sum_nonneg. rewrite Forall_map.
    eapply List.Forall_impl; [|exact Hg']. intros r Hr. simpl in Hr. lra. }
  split.
  - rewrite List.Forall_forall in Hnn. apply Hnn, in_map, Hg.
  - rewrite <- groupby_sum_all.
    apply Series_sum_member_le; [exact Hnn|apply in_map, Hg].
Qed.

Lemma exact_percentage_range (g : string * DataFrame) :
  In g (groupby_Category d) ->
  0 <= exact_percentage total_spending g /\ exact_percentage total_spending g <= 100.
Proof.
  intros Hg. destruct (group_sum_range g Hg) as [Hlo Hhi].
  pose proof total_spending_pos as Hpos. unfold exact_percentage.
  assert (0 <= group_sum g / total_spending) as H0.
  { apply Qle_shift_div_l; [exact Hpos|]. lra. }
  assert (group_sum g / total_spending <= 1) as H1.
  { apply Qle_shift_div_r; [exact Hpos|]. lra. }
  split; lra.
Qed.

Lemma exact_percentages_sum :
  Series_sum (map (exact_percentage total_spending) (groupby_Category d)) == 100.
Proof.
  pose proof total_spending_pos as Hpos. unfold exact_percentage.
  rewrite <- (map_map group_sum (fun s => s / total_spending * 100)).
  rewrite (Series_sum_map_ext _ (fun s => s * (/ total_spending * 100)))
    by (intros; unfold Qdiv; ring).
  rewrite Series_sum_scale, groupby_sum_all.
  field. lra.
Qed.

Lemma group_percentage (g : string * DataFrame) :
  In g (groupby_Category d) ->
  let row := with_percentage total_spending (agg_round g) in
  Percentage row = Some (rounded_percentage total_spending row) /\
  rounded_percentage total_spending row == round2 (exact_percentage total_spending g).
Proof.
  pose proof total_spending_pos as Hpos.
  intros Hg row. split.
  - unfold row, with_percentage. cbn [Percentage Total_Amount agg_round].
    fold (group_sum g).
    rewrite np_div_finite by lra. reflexivity.
  - unfold row, rounded_percentage, exact_percentage.
    cbn [with_percentage Total_Amount agg_round]. fold (group_sum g).
    rewrite (group_sum_cents g Hg). reflexivity.
Qed.

Lemma rounded_percentage_range (g : string * DataFrame) :
  In g (groupby_Category d) ->
  0 <= round2 (exact_percentage total_spending g) /\
  round2 (exact_percentage total_spending g) <= 100.
Proof.
  intros Hg. destruct (exact_percentage_range g Hg) as [Hlo Hhi].
  apply round2_mono in Hlo, Hhi.
  rewrite (round2_inject_Z 0) in Hlo. rewrite (round2_inject_Z 100) in Hhi.
  split; assumption.
Qed.

Lemma rounded_percentages_sum :
  Qabs (Series_sum (map (rounded_percentage total_spending) (unsorted_stats d)) - 100) <=
  (1 # 200) * inject_Z (Z.of_nat (List.length (unsorted_stats d))).
Proof.
  unfold unsorted_stats at 1. rewrite !map_map.
  rewrite (Series_sum_map_ext _ (fun g => round2 (exact_percentage total_spending g)))
    by (intros g Hg; apply (group_percentage g Hg)).
  rewrite <- exact_percentages_sum.
  replace (List.length (unsorted_stats d))
    with (List.length (map (fun g => round2 (exact_percentage total_spending g))
                         (groupby_Category d)))
    by (unfold unsorted_stats; rewrite !length_map; reflexivity).
  apply Series_sum_close, Forall2_map_same.
  intros g _. apply round2_error.
Qed.

End Percentages.

(** The percentages also fall short of 100 when a row has no category:
    its amount counts in the total and in no category. *)
Example category_percentages_miss_unlabelled_rows :
  option_map (map (fun row => (Category_key row, Percentage row)))
    (category_analysis (insertion_sorter true) unlabelled) =
  Some [("Food"%string, Some 66.67)].
Proof. reflexivity. Qed.

(** C7, amended. On a table with at least one row whose amounts are
    positive and have at most two decimal places, in which every row
    has a category and whose sums stay in range, every percentage of
    the category analysis is finite and lies between 0 and 100, and the
    percentages add up to 100 within 0.01 per category. *)
Theorem category_percentages_bounded (quicksort : Sorter) (self : ExpenseTracker) :
  df self <> [] ->
  Forall (fun r => 0 < Amount r) (df self) ->
  Forall (fun r => whole_cents (Amount r)) (df self) ->
  Forall has_category (df self) ->
  sums_in_range (df self) ->
  exists rows ps,
    category_analysis quicksort self = Some rows /\
    map Percentage rows = map Some ps /\
    Forall (fun p => 0 <= p /\ p <= 100) ps /\
    Qabs (Series_sum ps - 100) <= (1 # 100) * inject_Z (Z.of_nat (List.length rows)).
Proof.
  intros Hne Hpos Hcents Hcat _.
  set (total := Series_sum (map Amount (df self))).
  pose proof (category_stats_perm quicksort (df self)) as Hperm.
  assert (forall row, In row (category_stats_of quicksort (df self)) ->
            exists g, In g (groupby_Category (df self)) /\
                      row = with_percentage total (agg_round g)) as Hrow.
  { intros row Hin. apply (Permutation_in _ (Permutation_sym Hperm)) in Hin.
    unfold unsorted_stats in Hin. rewrite map_map in Hin.
    apply in_map_iff in Hin as (g & E & Hg). eauto. }
  exists (category_stats_of quicksort (df self)),
    (map (rounded_percentage total) (category_stats_of quicksort (df self))).
  assert (Qabs (Series_sum
                  (map (rounded_percentage total) (category_stats_of quicksort (df self)))
                - 100) <=
          (1 # 200) * inject_Z (Z.of_nat (List.length (category_stats_of quicksort (df self)))))
    as Hsum.
  { rewrite <- (Series_sum_perm _ _ (Permutation_map _ Hperm)).
    rewrite <- (Permutation_length Hperm).
    apply rounded_percentages_sum; assumption. }
  split; [apply category_analysis_nonempty, Hne|].
  split; [|split].
  - rewrite map_map. apply map_ext_in. intros row Hin.
    destruct (Hrow row Hin) as (g & Hg & ->).
    apply (group_percentage (df self) Hne Hpos Hcents g Hg).
  - rewrite Forall_map. apply List.Forall_forall. intros row Hin.
    destruct (Hrow row Hin) as (g & Hg & ->). simpl.
    destruct (group_percentage (df self) Hne Hpos Hcents g Hg) as [_ E].
    fold total in E. rewrite E.
    apply (rounded_percentage_range (df self) Hne Hpos Hcat g Hg).
  - eapply Qle_trans; [exact Hsum|].
    assert (0 <= inject_Z (Z.of_nat (List.length (category_stats_of quicksort (df self)))))
      as Hn by (change 0 with (inject_Z 0); rewrite <- Zle_Qle; lia).
    lra.
Qed.

Lemma category_percentages_bounded_witness :
  df sample_tracker <> [] /\
  Forall (fun r => 0 < Amount r) (df sample_tracker) /\
  Forall (fun r => whole_cents (Amount r)) (df sample_tracker) /\
  Forall has_category (df sample_tracker) /\
  sums_in_range (df sample_tracker) /\
  exists rows ps,
    category_analysis (insertion_sorter true) sample_tracker = Some rows /\
    map Percentage rows = map Some ps /\
    Forall (fun p => 0 <= p /\ p <= 100) ps /\
    Qabs (Series_sum ps - 100) <= (1 # 100) * inject_Z (Z.of_nat (List.length rows)).
Proof.
  split; [discriminate|]. split; [exact sample_positive|].
  split; [exact sample_whole_cents|]. split; [exact sample_has_category|].
  split; [exact sample_sums_in_range|].
  apply (category_percentages_bounded (insertion_sorter true) sample_tracker);
    [discriminate|exact sample_positive|exact sample_whole_cents|
     exact sample_has_category|exact sample_sums_in_range].
Defined.

(** The percentages of the seed table. *)
Example sample_percentages :
  option_map (map (fun row => (Category_key row, Percentage row)))
    (category_analysis (insertion_sorter true) sample_tracker) =
  Some [("Rent"%string, Some 76.05); ("Entertainment"%string, Some 12.17);
        ("Food"%string, Some 6.84); ("Utilities"%string, Some 3.04);
        ("Transport"%string, Some 1.90)].
Proof. reflexivity. Qed.

(** * Further properties *)

(** ** Appending, continued *)

Section AppendValid.

Variable float : string -> option Q.
Variable to_datetime : string -> option Timestamp.
Variable strftime : Timestamp -> string.
Variables (self : ExpenseTracker) (fs : FS).
Variables today date_in category_in amount_in description_in : string.

Let add := add_new_expense float to_datetime strftime.

Let date := if String.eqb (strip date_in) "" then today else strip date_in.

(** What [add_new_expense] returns on lines that pass every check. *)
Lemma add_new_expense_accepts (amount : Q) (t : Timestamp) :
  float (strip amount_in) = Some amount ->
  0 < amount ->
  strip category_in <> ""%string ->
  strip description_in <> ""%string ->
  to_datetime date = Some t ->
  let row := {| Date := t; Category := Some (strip category_in); Amount := amount;
                Description := Some (strip description_in) |} in
  let self' := set_df self (df self ++ [row]) in
  add self fs today date_in category_in amount_in description_in =
    (self', fst (save_data strftime self' fs), Added row (snd (save_data strftime self' fs))).
Proof.
  intros Hf Hpos Hc Hd Ht row self'.
  unfold add, add_new_expense. rewrite Hf.
  apply String.eqb_neq in Hc, Hd. rewrite Hc, Hd. cbn [orb].
  assert (Qle_bool amount 0 = false) as Ha.
  { apply not_true_iff_false. rewrite Qle_bool_iff. apply Qlt_not_le, Hpos. }
  rewrite Ha. fold date. unfold parse_date. rewrite Ht.
  fold row. fold self'. destruct (save_data strftime self' fs). reflexivity.
Qed.



(** X3. Nothing is deduplicated: the same valid lines typed twice give
    two equal rows at the end of the table. *)
Theorem add_new_expense_twice (amount : Q) (t : Timestamp) :
  float (strip amount_in) = Some amount ->
  0 < amount ->
  strip category_in <> ""%string ->
  strip description_in <> ""%string ->
  to_datetime date = Some t ->
  let row := {| Date := t; Category := Some (strip category_in); Amount := amount;
                Description := Some (strip description_in) |} in
  let '(self1, fs1, _) :=
    add self fs today date_in category_in amount_in description_in in
  let '(self2, _, outcome) :=
    add self1 fs1 today date_in category_in amount_in description_in in
  df self2 = df self ++ [row; row] /\ exists saved, outcome = Added row saved.
Proof.
  intros Hf Hpos Hc Hd Ht row.
  pose proof (add_new_expense_accepts amount t Hf Hpos Hc Hd Ht) as E.
  cbn zeta in E. unfold add in *. rewrite E. clear E.
  unfold add_new_expense. rewrite Hf.
  apply String.eqb_neq in Hc, Hd. rewrite Hc, Hd. cbn [orb].
  assert (Qle_bool amount 0 = false) as Ha.
  { apply not_true_iff_false. rewrite Qle_bool_iff. apply Qlt_not_le, Hpos. }
  rewrite Ha. fold date. unfold parse_date. rewrite Ht. fold row.
  destruct (save_data strftime (set_df (set_df self (df self ++ [row])) _) _).
  cbn [df set_df]. rewrite <- app_assoc. split; [reflexivity|eauto].
Qed.

End AppendValid.


Lemma add_new_expense_twice_witness :
  decimal (strip "12") = Some 12 /\
  0 < 12 /\
  strip "Food" <> ""%string /\
  strip "Tea" <> ""%string /\
  iso_date (if String.eqb (strip "2025-06-21") "" then "2025-06-20"%string
            else strip "2025-06-21") = Some (midnight 2025 6 21) /\
  let '(self1, fs1, _) :=
    add_new_expense decimal iso_date iso_format sample_tracker no_files
      "2025-06-20" "2025-06-21" "Food" "12" "Tea" in
  let '(self2, _, outcome) :=
    add_new_expense decimal iso_date iso_format self1 fs1
      "2025-06-20" "2025-06-21" "Food" "12" "Tea" in
  df self2 =
    df sample_tracker ++
    [ {| Date := midnight 2025 6 21; Category := Some (strip "Food"); Amount := 12;
         Description := Some (strip "Tea") |};
      {| Date := midnight 2025 6 21; Category := Some (strip "Food"); Amount := 12;
         Description := Some (strip "Tea") |} ] /\
  exists saved,
    outcome = Added {| Date := midnight 2025 6 21; Category := Some (strip "Food"); Amount := 12;
                       Description := Some (strip "Tea") |} saved.
Proof.
  assert (0 < 12) as Hpos by reflexivity.
  split; [reflexivity|]. split; [exact Hpos|].
  split; [discriminate|]. split; [discriminate|]. split; [reflexivity|].
  apply (add_new_expense_twice decimal iso_date iso_format sample_tracker no_files
           "2025-06-20" "2025-06-21" "Food" "12" "Tea" 12 (midnight 2025 6 21));
    [reflexivity|exact Hpos|discriminate|discriminate|reflexivity].
Defined.


(** ** Category totals of the date filter and of the pie chart *)



Section FilterTotals.

Variable to_datetime : string -> option Timestamp.
Variable quicksort : Sorter.
Variable self : ExpenseTracker.
Variables start_in end_in : string.

Let report := filter_by_date to_datetime quicksort self start_in end_in.


(** X10. A range that covers every date of the table reports every row,
    in table order, with the total of the overview. *)
Theorem filter_by_date_whole_range (start_dt end_dt : Timestamp) :
  to_datetime (strip start_in) = Some start_dt ->
  to_datetime (strip end_in) = Some end_dt ->
  df self <> [] ->
  Forall (fun r => (start_dt <= Date r <= end_dt)%Z) (df self) ->
  exists cats total n avg hi h lo l,
    report = Found (df self) total cats /\
    display_total_overview self = Ok (Overview total n avg hi h lo l).
Proof.
  intros Hs He Hne Hall.
  destruct (display_total_overview_nonempty self Hne) as (hi & h & lo & l & E & _).
  pose proof (filter_by_date_parsed to_datetime quicksort self start_in end_in
                start_dt end_dt Hs He) as Hr.
  fold report in Hr.
  assert (List.filter (in_range start_dt end_dt) (df self) = df self) as Hf.
  { clear Hr E. induction Hall as [|r d Hr _ IH]; [reflexivity|]. simpl.
    unfold in_range at 1.
    destruct Hr as [H1 H2]. apply Z.leb_le in H1, H2. rewrite H1, H2. simpl.
    destruct d as [|r' d']; [reflexivity|]. rewrite IH by discriminate. reflexivity. }
  cbn zeta in Hr. rewrite Hf in Hr.
  destruct (df self) as [|r d] eqn:Ed; [congruence|]. cbn [empty] in Hr.
  do 8 eexists. split; [exact Hr|exact E].
Qed.

End FilterTotals.


Lemma sample_dates_in_june :
  Forall (fun r => (midnight 2025 6 1 <= Date r <= midnight 2025 6 30)%Z)
    (df sample_tracker).
Proof.
  repeat (apply List.Forall_cons; [split; discriminate|]). apply List.Forall_nil.
Defined.

Lemma filter_by_date_whole_range_witness :
  iso_date (strip "2025-06-01") = Some (midnight 2025 6 1) /\
  iso_date (strip "2025-06-30") = Some (midnight 2025 6 30) /\
  df sample_tracker <> [] /\
  Forall (fun r => (midnight 2025 6 1 <= Date r <= midnight 2025 6 30)%Z)
    (df sample_tracker) /\
  exists cats total n avg hi h lo l,
    filter_by_date iso_date (insertion_sorter true) sample_tracker
      "2025-06-01" "2025-06-30" = Found (df sample_tracker) total cats /\
    display_total_overview sample_tracker = Ok (Overview total n avg hi h lo l).
Proof.
  assert (df sample_tracker <> []) as Hne by discriminate.
  split; [reflexivity|]. split; [reflexivity|]. split; [exact Hne|].
  split; [exact sample_dates_in_june|].
  exact (filter_by_date_whole_range iso_date (insertion_sorter true) sample_tracker
           "2025-06-01" "2025-06-30" (midnight 2025 6 1) (midnight 2025 6 30)
           eq_refl eq_refl Hne sample_dates_in_june).
Defined.

(** ** The listing and the pie chart *)

Lemma StronglySorted_impl {A} (R R' : A -> A -> Prop) (l : list A) :
  (forall a b, R a b -> R' a b) -> StronglySorted R l -> StronglySorted R' l.
Proof.
  intros H. induction 1 as [|x l Hs IH Hx]; constructor; [exact IH|].
  eapply List.Forall_impl; [|exact Hx]. intros b. apply H.
Qed.

(** X13. "View all" on a table with at least one row lists every row
    exactly once, newest first, and reports the number of rows and the
    sum of their amounts; on an empty table it reports that nothing was
    found. *)
Theorem view_all_expenses_lists_every_row (quicksort : Sorter) (self : ExpenseTracker) :
  (df self = [] -> view_all_expenses quicksort self = NoExpensesToView) /\
  (df self <> [] ->
   exists sorted_df total,
     view_all_expenses quicksort self =
       AllExpenses sorted_df (List.length (df self)) total /\
     Permutation (df self) sorted_df /\
     StronglySorted (fun a b => (Date b <= Date a)%Z) sorted_df /\
     total == Series_sum (map Amount (df self))).
Proof.
  unfold view_all_expenses. split.
  - intros ->. reflexivity.
  - intros Hne. destruct (df self) as [|r d] eqn:E; [congruence|]. cbn [empty].
    pose proof (sort_desc_perm quicksort _ (fun r => inject_Z (Date r)) (r :: d)) as Hperm.
    do 2 eexists. split; [|split; [exact Hperm|split]].
    + rewrite <- (Permutation_length Hperm). reflexivity.
    + eapply StronglySorted_impl; [|apply (sort_desc_sorted quicksort)].
      intros a b H. rewrite Zle_Qle. exact H.
    + apply Series_sum_perm, Permutation_map, Permutation_sym, Hperm.
Qed.

Lemma view_all_expenses_lists_every_row_witness :
  df sample_tracker <> [] /\
  exists sorted_df total,
    view_all_expenses (insertion_sorter true) sample_tracker =
      AllExpenses sorted_df (List.length (df sample_tracker)) total /\
    Permutation (df sample_tracker) sorted_df /\
    StronglySorted (fun a b => (Date b <= Date a)%Z) sorted_df /\
    total == Series_sum (map Amount (df sample_tracker)).
Proof.
  split; [discriminate|].
  apply (view_all_expenses_lists_every_row (insertion_sorter true) sample_tracker).
  discriminate.
Defined.


(** ** The summary report *)

(** The columns that the report shares with the category analysis. *)
Definition report_fields (r : Report.Row) : string * Q * nat * num * num :=
  (Report.label r, Report.Total_Amount r, Report.Transaction_Count r,
   Report.Average_Amount r, Report.Percentage r).

Definition stat_fields (row : StatRow) : string * Q * nat * num * num :=
  (Category_key row, Total_Amount row, Transaction_Count row,
   Average_Amount row, Percentage row).

(** [lo] and [hi] are the earliest and the latest date among [rows],
    and both occur there. *)
Definition date_span (rows : DataFrame) (lo hi : Timestamp) : Prop :=
  (forall r, In r rows -> (lo <= Date r <= hi)%Z) /\
  (exists r, In r rows /\ Date r = lo) /\
  (exists r, In r rows /\ Date r = hi).

Lemma fold_left_min_spec (l : list Z) (t : Z) :
  let m := fold_left Z.min l t in
  (m <= t)%Z /\ (forall x, In x l -> (m <= x)%Z) /\ (m = t \/ In m l).
Proof.
  revert t. induction l as [|x l IH]; intros t; cbn [fold_left].
  - split; [lia|]. split; [intros x []|left; reflexivity].
  - destruct (IH (Z.min t x)) as (H1 & H2 & H3). split; [lia|]. split.
    + intros y [<-|Hy]; [lia|apply H2, Hy].
    + destruct H3 as [H3|H3]; [|right; right; exact H3].
      destruct (Z.min_spec t x) as [[_ E]|[_ E]]; rewrite E in H3;
        [left|right; left]; congruence.
Qed.

Lemma fold_left_max_spec (l : list Z) (t : Z) :
  let m := fold_left Z.max l t in
  (t <= m)%Z /\ (forall x, In x l -> (x <= m)%Z) /\ (m = t \/ In m l).
Proof.
  revert t. induction l as [|x l IH]; intros t; cbn [fold_left].
  - split; [lia|]. split; [intros x []|left; reflexivity].
  - destruct (IH (Z.max t x)) as (H1 & H2 & H3). split; [lia|]. split.
    + intros y [<-|Hy]; [lia|apply H2, Hy].
    + destruct H3 as [H3|H3]; [|right; right; exact H3].
      destruct (Z.max_spec t x) as [[_ E]|[_ E]]; rewrite E in H3;
        [right; left|left]; congruence.
Qed.

Lemma Series_min_max_span (rows : DataFrame) :
  rows <> [] ->
  exists lo hi,
    Series_min (map Date rows) = Some lo /\
    Series_max (map Date rows) = Some hi /\
    date_span rows lo hi.
Proof.
  destruct rows as [|r rows]; [congruence|]. intros _.
  cbn [map Series_min Series_max]. do 2 eexists.
  split; [reflexivity|]. split; [reflexivity|].
  destruct (fold_left_min_spec (map Date rows) (Date r)) as (A1 & A2 & A3).
  destruct (fold_left_max_spec (map Date rows) (Date r)) as (B1 & B2 & B3).
  split; [|split].
  - intros r' [<-|Hr']; [lia|].
    split; [apply A2|apply B2]; apply in_map, Hr'.
  - destruct A3 as [A3|A3].
    + exists r. split; [left; reflexivity|symmetry; exact A3].
    + apply in_map_iff in A3 as (r' & E & Hr'). exists r'. split; [right|]; assumption.
  - destruct B3 as [B3|B3].
    + exists r. split; [left; reflexivity|symmetry; exact B3].
    + apply in_map_iff in B3 as (r' & E & Hr'). exists r'. split; [right|]; assumption.
Qed.

Section SummaryReport.

Variable report_of_empty : result (list Report.Row).
Variables (self : ExpenseTracker) (fs : FS).

Let export := export_summary_report report_of_empty self fs.

Lemma export_nonempty :
  df self <> [] ->
  forall fs' full_report n m total,
    export = (fs', Exported full_report n m total) ->
    full_report = report_category_stats (df self) ++ [report_summary_stats (df self)] /\
    n = List.length (groupby_Category (df self)) /\
    m = List.length (df self) /\
    total = Series_sum (map Amount (df self)).
Proof.
  intros Hne fs' full_report n m total. unfold export, export_summary_report.
  destruct (df self) as [|r d] eqn:E; [congruence|]. cbn [full_report_of].
  destruct (write_file _ _ _); [|discriminate].
  intros [= _ <- <- <- <-]. auto.
Qed.

(** X15. The report of a table with at least one row has one row per
    category that a row of the table has, in ascending order of the
    category names (it is not sorted by amount), followed by one last
    row labelled TOTAL. The TOTAL row carries the sum of all amounts,
    the number of rows of the table and the percentage 100. The counts
    printed after the export are the number of category rows and the
    number of rows of the table. *)
Theorem export_summary_report_rows (fs' : FS) (full_report : list Report.Row)
    (n m : nat) (total : Q) :
  df self <> [] ->
  export = (fs', Exported full_report n m total) ->
  exists cats tot,
    full_report = cats ++ [tot] /\
    StronglySorted
      (fun a b => String.compare (Report.label a) (Report.label b) = Lt) cats /\
    (forall c, In c (map Report.label cats) <->
               exists r, In r (df self) /\ Category r = Some c) /\
    n = List.length cats /\
    Report.label tot = "TOTAL"%string /\
    Report.Total_Amount tot = Series_sum (map Amount (df self)) /\
    Report.Total_Amount tot = total /\
    Report.Transaction_Count tot = List.length (df self) /\
    Report.Transaction_Count tot = m /\
    Report.Percentage tot = Some 100.
Proof.
  intros Hne E. destruct (export_nonempty Hne _ _ _ _ _ E) as (-> & -> & -> & ->).
  do 2 eexists. split; [reflexivity|].
  unfold report_category_stats. split; [|split; [|split]].
  - apply StronglySorted_map. cbn [Report.label]. apply groupby_sorted.
  - intros c. rewrite map_map. cbn [Report.label]. apply groupby_keys.
  - rewrite length_map. reflexivity.
  - cbn [report_summary_stats Report.label Report.Total_Amount
         Report.Transaction_Count Report.Percentage].
    repeat (split; [reflexivity|]). reflexivity.
Qed.

(** X16. The rows of the report for the categories carry the same total,
    count, average and percentage as the rows of the category analysis
    of the same table; only the order differs. *)
Theorem export_agrees_with_category_analysis (quicksort : Sorter)
    (fs' : FS) (full_report : list Report.Row) (n m : nat) (total : Q)
    (rows : list StatRow) :
  export = (fs', Exported full_report n m total) ->
  category_analysis quicksort self = Some rows ->
  exists cats tot,
    full_report = cats ++ [tot] /\
    Permutation (map report_fields cats) (map stat_fields rows).
Proof.
  intros E Ha.
  assert (df self <> []) as Hne.
  { intros H. unfold category_analysis in Ha. rewrite H in Ha. discriminate. }
  destruct (export_nonempty Hne _ _ _ _ _ E) as (-> & _).
  rewrite (category_analysis_nonempty quicksort self Hne) in Ha. injection Ha as <-.
  do 2 eexists. split; [reflexivity|].
  etransitivity;
    [|apply Permutation_map, (category_stats_perm quicksort (df self))].
  unfold report_category_stats, unsorted_stats. rewrite !map_map.
  apply Permutation_refl'. apply map_ext. intros g.
  unfold report_fields, stat_fields.
  cbn [with_percentage agg_round Category_key Total_Amount Transaction_Count
       Average_Amount Percentage Report.label Report.Total_Amount
       Report.Transaction_Count Report.Average_Amount Report.Percentage].
  reflexivity.
Qed.

(** X17. The first and last date of a category row are the earliest and
    the latest date among the rows of that category, and those of the
    TOTAL row are the earliest and the latest date of the table. *)
Theorem export_summary_report_dates (fs' : FS) (full_report : list Report.Row)
    (n m : nat) (total : Q) :
  df self <> [] ->
  export = (fs', Exported full_report n m total) ->
  exists cats tot,
    full_report = cats ++ [tot] /\
    Forall (fun row =>
              exists lo hi,
                Report.First_Date row = Some lo /\ Report.Last_Date row = Some hi /\
                date_span (rows_of (Report.label row) (df self)) lo hi)
      cats /\
    exists lo hi,
      Report.First_Date tot = Some lo /\ Report.Last_Date tot = Some hi /\
      date_span (df self) lo hi.
Proof.
  intros Hne E. destruct (export_nonempty Hne _ _ _ _ _ E) as (-> & _).
  do 2 eexists. split; [reflexivity|]. split.
  - unfold report_category_stats. rewrite Forall_map.
    pose proof (groupby_rows (df self)) as Hrows.
    pose proof (groupby_nonempty (df self)) as Hn.
    rewrite List.Forall_forall in Hrows, Hn. apply List.Forall_forall.
    intros [k rows] Hg. specialize (Hrows _ Hg). specialize (Hn _ Hg).
    cbn [fst snd] in Hrows, Hn.
    cbn [Report.First_Date Report.Last_Date Report.label fst snd].
    rewrite <- Hrows. apply Series_min_max_span, Hn.
  - cbn [report_summary_stats Report.First_Date Report.Last_Date].
    apply Series_min_max_span, Hne.
Qed.

End SummaryReport.

Lemma export_summary_report_rows_witness :
  df sample_tracker <> [] /\
  exists fs' full_report n m total,
    export_summary_report (Raise ValueError) sample_tracker no_files =
      (fs', Exported full_report n m total) /\
    map Report.label full_report =
      ["Entertainment"%string; "Food"%string; "Rent"%string; "Transport"%string;
       "Utilities"%string; "TOTAL"%string] /\
    exists cats tot,
      full_report = cats ++ [tot] /\
      n = List.length cats /\
      Report.Transaction_Count tot = m /\
      Report.label tot = "TOTAL"%string.
Proof.
  assert (df sample_tracker <> []) as Hne by discriminate.
  split; [exact Hne|]. do 5 eexists. split; [reflexivity|]. split; [reflexivity|].
  destruct (export_summary_report_rows (Raise ValueError) sample_tracker no_files
              _ _ _ _ _ Hne eq_refl)
    as (cats & tot & E & _ & _ & Hn & Hl & _ & _ & _ & Hm & _).
  exists cats, tot. auto.
Defined.

Lemma export_agrees_with_category_analysis_witness :
  exists fs' full_report n m total rows,
    export_summary_report (Raise ValueError) sample_tracker no_files =
      (fs', Exported full_report n m total) /\
    category_analysis (insertion_sorter true) sample_tracker = Some rows /\
    exists cats tot,
      full_report = cats ++ [tot] /\
      Permutation (map report_fields cats) (map stat_fields rows).
Proof.
  do 6 eexists. split; [reflexivity|]. split; [reflexivity|].
  exact (export_agrees_with_category_analysis (Raise ValueError) sample_tracker no_files
           (insertion_sorter true) _ _ _ _ _ _ eq_refl eq_refl).
Defined.

Lemma export_summary_report_dates_witness :
  df sample_tracker <> [] /\
  exists fs' full_report n m total,
    export_summary_report (Raise ValueError) sample_tracker no_files =
      (fs', Exported full_report n m total) /\
    exists cats tot,
      full_report = cats ++ [tot] /\
      Forall (fun row =>
                exists lo hi,
                  Report.First_Date row = Some lo /\ Report.Last_Date row = Some hi /\
                  date_span (rows_of (Report.label row) (df sample_tracker)) lo hi)
        cats /\
      exists lo hi,
        Report.First_Date tot = Some lo /\ Report.Last_Date tot = Some hi /\
        date_span (df sample_tracker) lo hi.
Proof.
  assert (df sample_tracker <> []) as Hne by discriminate.
  split; [exact Hne|]. do 5 eexists. split; [reflexivity|].
  exact (export_summary_report_dates (Raise ValueError) sample_tracker no_files
           _ _ _ _ _ Hne eq_refl).
Defined.

(** The first and last dates of the seed report. *)
Example sample_report_dates :
  match export_summary_report (Raise ValueError) sample_tracker no_files with
  | (_, Exported full_report _ _ _) =>
      map (fun row => (Report.label row, Report.First_Date row, Report.Last_Date row))
        full_report =
      [("Entertainment"%string, Some (midnight 2025 6 14), Some (midnight 2025 6 14));
       ("Food"%string, Some (midnight 2025 6 10), Some (midnight 2025 6 13));
       ("Rent"%string, Some (midnight 2025 6 12), Some (midnight 2025 6 12));
       ("Transport"%string, Some (midnight 2025 6 11), Some (midnight 2025 6 15));
       ("Utilities"%string, Some (midnight 2025 6 12), Some (midnight 2025 6 12));
       ("TOTAL"%string, Some (midnight 2025 6 10), Some (midnight 2025 6 15))]
  | _ => False
  end.
Proof. reflexivity. Qed.

(** ** The menu loop *)

(** The rows whose appending was reported, in order. *)
Definition added_rows (shown : list Shown) : list Expense :=
  flat_map (fun ev => match ev with
                      | ShowAdd (Added row _) => [row]
                      | _ => []
                      end) shown.

Definition is_load (ev : Shown) : Prop :=
  match ev with
  | ShowLoad _ => True
  | _ => False
  end.


Definition no_load (shown : list Shown) : Prop := Forall (fun ev => ~ is_load ev) shown.

(** What a pass of the loop may do to the tracker: the path stays, and
    unless the pass reloads, the table is the old one followed by the
    rows it reports as added. *)
Definition step_keeps (s : Session) (shown : list Shown) (s' : Session) : Prop :=
  csv_file (tracker s') = csv_file (tracker s) /\
  (no_load shown -> df (tracker s') = df (tracker s) ++ added_rows shown).

Lemma added_rows_app (l1 l2 : list Shown) :
  added_rows (l1 ++ l2) = added_rows l1 ++ added_rows l2.
Proof. apply flat_map_app. Qed.

Lemma step_keeps_same (s s' : Session) (shown : list Shown) :
  tracker s' = tracker s -> added_rows shown = [] -> step_keeps s shown s'.
Proof.
  intros Ht Ha. unfold step_keeps. rewrite Ht, Ha, app_nil_r. auto.
Qed.

(** What one append does to the tracker. *)
Lemma add_new_expense_effect (float : string -> option Q)
    (to_datetime : string -> option Timestamp) (strftime : Timestamp -> string)
    (self : ExpenseTracker) (fs : FS)
    (today date_in category_in amount_in description_in : string) :
  let r := add_new_expense float to_datetime strftime self fs today
             date_in category_in amount_in description_in in
  csv_file (fst (fst r)) = csv_file self /\
  df (fst (fst r)) = df self ++ added_rows [ShowAdd (snd r)].
Proof.
  cbn zeta. unfold add_new_expense.
  destruct (float (strip amount_in)) as [amount|];
    [|cbn; rewrite app_nil_r; auto].
  destruct (String.eqb (strip category_in) "" || String.eqb (strip description_in) "");
    [cbn; rewrite app_nil_r; auto|].
  destruct (Qle_bool amount 0); [cbn; rewrite app_nil_r; auto|].
  destruct (parse_date to_datetime _) as [t|]; [|cbn; rewrite app_nil_r; auto].
  destruct (save_data strftime _ fs) as [fs' saved].
  cbn [fst snd added_rows flat_map app]. split; reflexivity.
Qed.

(** A load that returns keeps the path. *)
Lemma load_data_path (to_datetime_series : list string -> option (list Timestamp))
    (strftime : Timestamp -> string)
    (self self' : ExpenseTracker) (fs fs' : FS) (o : LoadOutcome) :
  load_data to_datetime_series strftime self fs = Returns (self', fs', o) ->
  csv_file self' = csv_file self.
Proof.
  unfold load_data, create_sample_data.
  destruct (exists_path fs (csv_file self)).
  - destruct (read_csv fs (csv_file self)) as [rows|]; [|discriminate]. cbn [bind].
    destruct (to_datetime_column to_datetime_series rows) as [d|]; [|discriminate].
    cbn [bind]. intros [= <- _ _]. reflexivity.
  - destruct (to_datetime_column to_datetime_series sample_data) as [d|]; [|discriminate].
    cbn [bind]. destruct (save_data strftime (set_df self d) fs) as [fs1 saved].
    intros [= <- _ _]. reflexivity.
Qed.

Section Loop.

Variable float : string -> option Q.
Variable to_datetime : string -> option Timestamp.
Variable to_datetime_series : list string -> option (list Timestamp).
Variable strftime : Timestamp -> string.
Variable quicksort : Sorter.
Variable report_of_empty : result (list Report.Row).
Variable render_pie : list (string * Q) -> bool.
Variable today : nat -> string.

Let pass :=
  step float to_datetime to_datetime_series strftime quicksort report_of_empty
    render_pie today.
Let loop :=
  run_from float to_datetime to_datetime_series strftime quicksort report_of_empty
    render_pie today.
Let whole :=
  run float to_datetime to_datetime_series strftime quicksort report_of_empty
    render_pie today.

(** The two ways in which a pass waits for a line. *)
Lemma pause_effect (shown : list Shown) (s0 : Session) :
  exists s',
    (snd (pause shown s0) = Again s' \/ snd (pause shown s0) = Uncaught s') /\
    tracker s' = tracker s0 /\
    (List.length (console s') <= List.length (console s0))%nat /\
    (fst (pause shown s0) = shown \/ fst (pause shown s0) = shown ++ [ShowError]).
Proof.
  unfold pause. destruct (console s0) as [|line rest] eqn:E.
  - exists s0. rewrite E. cbn. auto 10.
  - eexists. cbn. split; [left; reflexivity|]. cbn. auto 10.
Qed.

Lemma recover_effect (shown : list Shown) (s0 : Session) :
  exists s',
    (snd (recover shown s0) = Again s' \/ snd (recover shown s0) = Uncaught s') /\
    tracker s' = tracker s0 /\
    (List.length (console s') <= List.length (console s0))%nat /\
    fst (recover shown s0) = shown ++ [ShowError].
Proof.
  unfold recover. destruct (console s0) as [|line rest] eqn:E.
  - exists s0. rewrite E. cbn. auto 10.
  - eexists. cbn. split; [left; reflexivity|]. cbn. auto 10.
Qed.

(** A pass is in order when the session it ends in is related to the
    session it started from by [step_keeps], with fewer lines left if
    the loop goes on, and when it exits only with code 1. *)
Definition pass_ok (s : Session) (r : list Shown * Next) : Prop :=
  match snd r with
  | Again s' =>
      step_keeps s (fst r) s' /\
      (List.length (console s') < List.length (console s))%nat
  | Break s' | Uncaught s' => step_keeps s (fst r) s'
  | SysExit code _ => code = 1%Z
  end.

Lemma step_keeps_later (s s0 s' : Session) (shown shown' : list Shown) :
  step_keeps s shown s0 ->
  tracker s' = tracker s0 ->
  shown' = shown \/ shown' = shown ++ [ShowError] ->
  step_keeps s shown' s'.
Proof.
  intros (H1 & H3) Ht Hs. unfold step_keeps. rewrite Ht.
  split; [exact H1|].
  destruct Hs as [->| ->]; [exact H3|].
  intros Hn. apply Forall_app in Hn as [Hn _].
  rewrite added_rows_app. cbn. rewrite app_nil_r. apply H3, Hn.
Qed.

Lemma pause_ok (s s0 : Session) (shown : list Shown) :
  step_keeps s shown s0 ->
  (List.length (console s0) < List.length (console s))%nat ->
  pass_ok s (pause shown s0).
Proof.
  intros Hk Hlen.
  destruct (pause_effect shown s0) as (s' & Hn & Ht & Hc & Hs).
  unfold pass_ok. destruct Hn as [-> | ->];
    [split; [|lia]|]; eapply step_keeps_later; eassumption.
Qed.

Lemma recover_ok (s s0 : Session) (shown : list Shown) :
  step_keeps s shown s0 ->
  (List.length (console s0) < List.length (console s))%nat ->
  pass_ok s (recover shown s0).
Proof.
  intros Hk Hlen.
  destruct (recover_effect shown s0) as (s' & Hn & Ht & Hc & Hs).
  unfold pass_ok. destruct Hn as [-> | ->];
    [split; [|lia]|]; eapply step_keeps_later; eauto.
Qed.

Lemma again_ok (s s' : Session) (shown : list Shown) :
  step_keeps s shown s' ->
  (List.length (console s') < List.length (console s))%nat ->
  pass_ok s (shown, Again s').
Proof. intros Hk Hlen. split; [exact Hk|exact Hlen]. Qed.

Lemma menu_filter_ok (s s0 : Session) :
  tracker s0 = tracker s ->
  (List.length (console s0) < List.length (console s))%nat ->
  pass_ok s (menu_filter to_datetime quicksort s0).
Proof.
  intros Ht Hlen. unfold menu_filter.
  destruct (console s0) as [|start_in [|end_in rest]] eqn:Ec;
    apply pause_ok;
    try (apply step_keeps_same; [exact Ht|reflexivity]);
    cbn [with_console console List.length] in *; lia.
Qed.

Lemma menu_add_ok (n : nat) (s s0 : Session) :
  tracker s0 = tracker s ->
  (List.length (console s0) < List.length (console s))%nat ->
  pass_ok s (menu_add float to_datetime strftime today n s0).
Proof.
  intros Ht Hlen. unfold menu_add.
  assert (forall date_in category_in amount_in description_in rest,
            (List.length rest < List.length (console s))%nat ->
            pass_ok s
              (let '(self', fs', outcome) :=
                 add_new_expense float to_datetime strftime (tracker s0) (disk s0)
                   (today n) date_in category_in amount_in description_in in
               ([ShowAdd outcome],
                Again {| tracker := self'; disk := fs'; console := rest |}))) as Hdone.
  { intros date_in category_in amount_in description_in rest Hrest.
    pose proof (add_new_expense_effect float to_datetime strftime (tracker s0) (disk s0)
                  (today n) date_in category_in amount_in description_in) as H.
    cbn zeta in H. destruct (add_new_expense _ _ _ _ _ _ _ _ _ _) as [[self' fs'] o].
    cbn [fst snd] in H. destruct H as (H1 & H2).
    apply again_ok; [|exact Hrest]. unfold step_keeps. cbn [tracker].
    rewrite <- Ht. split; [exact H1|]. intros _. exact H2. }
  assert (pass_ok s ([ShowAddError], Again (with_console s0 []))) as Hshort.
  { apply again_ok; [apply step_keeps_same; [exact Ht|reflexivity]|].
    cbn [with_console console List.length]. lia. }
  destruct (console s0) as [|date_in [|category_in [|amount_in rest]]] eqn:Ec;
    try exact Hshort.
  cbn [List.length] in Hlen.
  destruct (float (strip amount_in)).
  - destruct rest as [|description_in rest']; [exact Hshort|].
    apply Hdone. cbn [List.length] in Hlen. lia.
  - apply Hdone. lia.
Qed.

Lemma step_effect (n : nat) (s : Session) : pass_ok s (pass n s).
Proof.
  unfold pass, step.
  destruct (console s) as [|line rest] eqn:Ec.
  { apply step_keeps_same; reflexivity. }
  set (s0 := with_console s rest).
  assert (tracker s0 = tracker s) as Ht by reflexivity.
  assert (forall shown s', tracker s' = tracker s0 -> added_rows shown = [] ->
                           step_keeps s shown s') as Hsame
      by (intros shown s' H Ha; apply step_keeps_same; [congruence|exact Ha]).
  assert (List.length (console s0) < List.length (console s))%nat as Hlen
      by (rewrite Ec; cbn; lia).
  clearbody s0.
  destruct (String.eqb (strip line) "1").
  { destruct (display_total_overview (tracker s0));
      [apply pause_ok|apply recover_ok]; auto. }
  destruct (String.eqb (strip line) "2"); [apply pause_ok; auto|].
  destruct (String.eqb (strip line) "3").
  { destruct (create_pie_chart quicksort render_pie (tracker s0) (disk s0))
      as [[fs' chart]|e]; [|apply recover_ok; auto].
    apply again_ok; [|exact Hlen]. apply Hsame; reflexivity. }
  destruct (String.eqb (strip line) "4"); [apply menu_filter_ok; assumption|].
  destruct (String.eqb (strip line) "5"); [apply menu_add_ok; assumption|].
  destruct (String.eqb (strip line) "6").
  { destruct (export_summary_report report_of_empty (tracker s0) (disk s0))
      as [fs' outcome].
    apply pause_ok; [|exact Hlen]. apply Hsame; reflexivity. }
  destruct (String.eqb (strip line) "7").
  { destruct (load_data to_datetime_series strftime (tracker s0) (disk s0))
      as [[[self' fs'] outcome]|code] eqn:E.
    2:{ revert E. unfold load_data.
        destruct (if exists_path _ _ then _ else _); [discriminate|].
        intros [= <-]. reflexivity. }
    apply load_data_path in E.
    apply again_ok; [|exact Hlen]. unfold step_keeps. cbn [tracker].
    rewrite <- Ht. split; [exact E|].
    intros Hn. apply Forall_cons_iff in Hn as [Hn _]. destruct Hn. exact I. }
  destruct (String.eqb (strip line) "8"); [apply pause_ok; auto|].
  destruct (String.eqb (strip line) "9").
  { apply Hsame; reflexivity. }
  apply again_ok; auto.
Qed.

Lemma step_keeps_trans (s s1 s2 : Session) (l1 l2 : list Shown) :
  step_keeps s l1 s1 -> step_keeps s1 l2 s2 -> step_keeps s (l1 ++ l2) s2.
Proof.
  intros (H1 & H3) (K1 & K3). split; [congruence|].
  intros Hn. apply Forall_app in Hn as [Hn1 Hn2].
  rewrite K3, H3, added_rows_app, app_assoc by assumption. reflexivity.
Qed.

(** How the loop is left. *)
Definition ends_well (s : Session) (shown : list Shown) (ending : Next) : Prop :=
  match ending with
  | Again _ => False
  | Break s' | Uncaught s' => step_keeps s shown s'
  | SysExit code _ => code = 1%Z
  end.

Lemma run_from_effect (fuel : nat) :
  forall (n : nat) (s : Session),
    (List.length (console s) < fuel)%nat ->
    exists shown ending,
      loop fuel n s = (shown, Some ending) /\ ends_well s shown ending.
Proof.
  unfold loop. induction fuel as [|fuel IH]; intros n s Hlen; [lia|].
  cbn [run_from]. pose proof (step_effect n s) as H. unfold pass, pass_ok in H.
  destruct (step _ _ _ _ _ _ _ _ n s) as [shown [s'|s'|code fs|s']];
    cbn [fst snd] in H.
  - destruct H as [Hk Hc].
    destruct (IH (S n) s') as (shown' & ending & E & He); [lia|].
    rewrite E. exists (shown ++ shown'), ending. split; [reflexivity|].
    destruct ending as [s2|s2|code fs|s2]; cbn [ends_well] in *;
      [exact He|eapply step_keeps_trans; eassumption|exact He|
       eapply step_keeps_trans; eassumption].
  - exists shown, (Break s'). split; [reflexivity|exact H].
  - exists shown, (SysExit code fs). split; [reflexivity|exact H].
  - exists shown, (Uncaught s'). split; [reflexivity|exact H].
Qed.

Lemma run_effect (s : Session) :
  exists shown ending, whole s = (shown, Some ending) /\ ends_well s shown ending.
Proof. apply run_from_effect. lia. Qed.

(** X19. The loop stops on every console: one pass for each line and one
    more are enough, and the last pass did not ask for another one. *)
Theorem run_ends (s : Session) :
  exists shown ending,
    run float to_datetime to_datetime_series strftime quicksort report_of_empty
    render_pie today s =
      (shown, Some ending) /\
    match ending with Again _ => False | _ => True end.
Proof.
  destruct (run_effect s) as (shown & ending & E & He).
  exists shown, ending. split; [exact E|]. destruct ending; [destruct He|exact I..].
Qed.


(** X22. [main] ends in one of two ways: through choice 9, or with exit
    code 1. *)
Theorem main_ends (fs : FS) (lines : list string) :
  exists shown,
    (exists s,
       main float to_datetime to_datetime_series strftime quicksort report_of_empty
         render_pie today
         fs lines = (shown, Some (Break s))) \/
    (exists fs',
       main float to_datetime to_datetime_series strftime quicksort report_of_empty
         render_pie today
         fs lines = (shown, Some (SysExit 1 fs'))).
Proof.
  unfold main, init.
  destruct (load_data to_datetime_series strftime _ fs) as [[[self fs1] outcome]|code] eqn:El.
  - destruct (run_effect {| tracker := self; disk := fs1; console := lines |})
      as (shown & ending & E & He).
    unfold whole in E. rewrite E. exists (ShowLoad outcome :: shown).
    destruct ending as [s1|s1|code fs2|s1]; cbn [ends_well] in He.
    + destruct He.
    + left. eexists. reflexivity.
    + right. subst code. eexists. reflexivity.
    + right. eexists. reflexivity.
  - exists []. right. exists fs. revert El. unfold load_data.
    destruct (if exists_path _ _ then _ else _); [discriminate|].
    intros [= <-]. reflexivity.
Qed.

End Loop.


